(** * Wallet: keys, signatures and the persistence codec

    A shallow embedding of [types/wallet.go] of the AMP matching engine,
    with the functions of Go's [encoding/hex] and [math/big] and of
    go-ethereum's [common] and [crypto] that it calls (go-ethereum 1.8,
    Go 1.10 and later), each under the name it has there.

    Go values are modelled as follows.
    - a [byte] is [Byte.byte]; a byte slice and a Go [string] (a sequence
      of bytes) are both [list byte];
    - [common.Address], an array of 20 bytes, and [common.Hash], an array
      of 32 bytes, are byte lists, built through [BytesToAddress] and
      [BytesToHash], which always give 20 and 32 bytes;
    - a big integer is a [Z];
    - a pointer that may be nil is an [option];
    - a Go result pair [(v, err)] is a pair whose second component is an
      [option error] ([None] is [nil]);
    - a run-time panic (nil dereference, slice or index out of range) is
      the [Panic] outcome;
    - what [log.Print] writes is returned as a list;
    - a method that writes through its pointer receiver returns the value
      after the call. *)

From Stdlib Require Import String ZArith List Bool Lia.
From Stdlib Require Import Strings.Byte.
Import ListNotations.
Open Scope Z_scope.

Set Implicit Arguments.

(** ** Bytes and byte strings *)

Definition bytes := list byte.

Definition byte_to_Z (b : byte) : Z := Z.of_N (Byte.to_N b).

(** Conversion to a byte keeps the low eight bits, as Go's [byte(x)] does. *)
Definition byte_of_Z (z : Z) : byte :=
  match Byte.of_N (Z.to_N (z mod 256)) with
  | Some b => b
  | None => x00
  end.

(** [a + b] on Go bytes wraps around at 256. *)
Definition byte_add (a b : byte) : byte := byte_of_Z (byte_to_Z a + byte_to_Z b).

(** A string literal as the bytes it holds. *)
Definition str (s : string) : bytes := list_byte_of_string s.

Definition byte_eqb (a b : byte) : bool := Byte.eqb a b.

(** ** Errors, panics and outcomes *)

(** The error values that can reach the wallet code. *)
Inductive error : Type :=
| ErrLength                       (* encoding/hex: odd length hex string *)
| InvalidByteError (b : byte)     (* encoding/hex: invalid byte *)
| errorString (msg : string)      (* errors.New and fmt.Errorf *)
| foreignError (code : Z).        (* an error made by a collaborator *)

Inductive panic : Type :=
| NilDereference
| OutOfRange.

Inductive outcome (A : Type) : Type :=
| Return (a : A)
| Panic (p : panic).
Arguments Panic {A} p.

Definition obind {A B} (m : outcome A) (k : A -> outcome B) : outcome B :=
  match m with
  | Return a => k a
  | Panic p => Panic p
  end.

Notation "x <- m ;; k" := (obind m (fun x => k))
  (at level 61, m at next level, right associativity).

(** ** Package [encoding/hex] *)

Module hex.

Definition hextable : bytes := str "0123456789abcdef".

Definition EncodeByte (v : byte) : bytes :=
  [ nth (Z.to_nat (Z.shiftr (byte_to_Z v) 4)) hextable x00;
    nth (Z.to_nat (Z.land (byte_to_Z v) 15)) hextable x00 ].

(** [hex.EncodeToString]: two lower-case digits per byte. *)
Fixpoint EncodeToString (src : bytes) : bytes :=
  match src with
  | [] => []
  | v :: rest => EncodeByte v ++ EncodeToString rest
  end.

(** [fromHexChar]: the value of a digit, upper or lower case. *)
Definition fromHexChar (c : byte) : option Z :=
  let n := byte_to_Z c in
  if (48 <=? n) && (n <=? 57) then Some (n - 48)
  else if (97 <=? n) && (n <=? 102) then Some (n - 97 + 10)
  else if (65 <=? n) && (n <=? 70) then Some (n - 65 + 10)
  else None.

(** [hex.Decode] read two characters at a time.  The bytes decoded before
    an error are returned with it; a trailing single character is checked
    before the length is reported. *)
Fixpoint DecodeString (s : bytes) : bytes * option error :=
  match s with
  | [] => ([], None)
  | [c] =>
      match fromHexChar c with
      | None => ([], Some (InvalidByteError c))
      | Some _ => ([], Some ErrLength)
      end
  | c1 :: c2 :: rest =>
      match fromHexChar c1 with
      | None => ([], Some (InvalidByteError c1))
      | Some a =>
          match fromHexChar c2 with
          | None => ([], Some (InvalidByteError c2))
          | Some b =>
              let '(out, err) := DecodeString rest in
              (byte_of_Z (Z.lor (Z.shiftl a 4) b) :: out, err)
          end
      end
  end.

End hex.

(** ** Package [math/big] *)

Module big.

(** Little-endian base-256 digits of [n], most significant digit last and
    not zero; [fuel] bounds the number of digits. *)
Fixpoint digits (fuel : nat) (n : Z) : bytes :=
  match fuel with
  | O => []
  | S fuel' =>
      if n =? 0 then []
      else byte_of_Z (n mod 256) :: digits fuel' (n / 256)
  end.

(** [Int.Bytes]: the absolute value as a big-endian byte slice with no
    leading zero byte. *)
Definition Bytes (x : Z) : bytes :=
  rev (digits (Z.to_nat (Z.log2 (Z.abs x)) + 1) (Z.abs x)).

(** [Int.SetBytes]: the unsigned big-endian value of [buf]. *)
Definition SetBytes (buf : bytes) : Z :=
  fold_left (fun acc b => acc * 256 + byte_to_Z b) buf 0.

End big.

(** ** Packages [crypto/ecdsa] and [bson]: the types used *)

Module ecdsa.

Record PublicKey : Type := mkPublicKey { X : Z; Y : Z }.

(** [PrivateKey] embeds its [PublicKey]; [D] is the private scalar. *)
Record PrivateKey : Type := mkPrivateKey { Public : PublicKey; D : Z }.

End ecdsa.

Module bson.

Definition ObjectId := bytes.

End bson.

(** ** The cryptographic primitives

    What go-ethereum takes from libsecp256k1, from the Keccak sponge and
    from the system's random source. *)
Class Primitives : Type := {
  keccak : bytes -> bytes;
  ScalarBaseMult : bytes -> option (Z * Z);
  secp256k1_Sign : bytes -> bytes -> bytes * option error;
  PubkeyToAddress : ecdsa.PublicKey -> bytes;
  RandSource : Type;
  GenerateKey : RandSource -> option ecdsa.PrivateKey * option error
}.

(** ** Package [common] of go-ethereum *)

Module common.

Definition AddressLength : nat := 20.
Definition HashLength : nat := 32.

Definition Address := bytes.
Definition Hash := bytes.

(** [SetBytes] of a fixed array of [n] bytes: a longer slice is cropped
    from the left, a shorter one is copied to the right end of the zero
    array. *)
Definition setBytes (n : nat) (b : bytes) : bytes :=
  let b' := if Nat.ltb n (length b) then skipn (length b - n) b else b in
  repeat x00 (n - length b') ++ b'.

Definition BytesToAddress (b : bytes) : Address := setBytes AddressLength b.

Definition BytesToHash (b : bytes) : Hash := setBytes HashLength b.

Definition Hex2Bytes (s : bytes) : bytes := fst (hex.DecodeString s).

Definition has0xPrefix (s : bytes) : bool :=
  match s with
  | c0 :: c1 :: _ =>
      byte_eqb c0 "0"%byte && (byte_eqb c1 "x"%byte || byte_eqb c1 "X"%byte)
  | _ => false
  end.

(** [FromHex]: an optional [0x] is dropped and an odd number of digits is
    completed by a leading zero; the decoding error is ignored. *)
Definition FromHex (s : bytes) : bytes :=
  let s1 := if has0xPrefix s then skipn 2 s else s in
  let s2 := if Nat.odd (length s1) then "0"%byte :: s1 else s1 in
  Hex2Bytes s2.

Definition HexToAddress (s : bytes) : Address := BytesToAddress (FromHex s).

(** The loop of [Address.Hex] over the lower-case digits, from index [i]:
    a letter becomes upper case where the matching nibble of [hash] is
    above 7. *)
Fixpoint checksumCase (hash : bytes) (i : nat) (result : bytes) : bytes :=
  match result with
  | [] => []
  | c :: rest =>
      let h := byte_to_Z (nth (Nat.div i 2) hash x00) in
      let hashByte := if Nat.even i then Z.shiftr h 4 else Z.land h 15 in
      (if (57 <? byte_to_Z c) && (7 <? hashByte)
       then byte_of_Z (byte_to_Z c - 32) else c)
      :: checksumCase hash (S i) rest
  end.

(** [Address.Hex]: the EIP-55 mixed-case hexadecimal form, with [0x]. *)
Definition Hex `{Primitives} (a : Address) : bytes :=
  let unchecksummed := hex.EncodeToString a in
  str "0x" ++ checksumCase (keccak unchecksummed) 0 unchecksummed.

End common.

(** ** Package [crypto] of go-ethereum *)

Module crypto.

Definition secp256k1N : Z :=
  0xfffffffffffffffffffffffffffffffebaaedce6af48a03bbfd25e8cd0364141.

(** [Keccak256(data...)]: the chunks are written to the sponge in turn. *)
Definition Keccak256 `{Primitives} (data : list bytes) : bytes :=
  keccak (concat data).

(** [math.PaddedBigBytes]: big-endian, left-padded with zeros to [n]
    bytes; a number that needs more than [n] bytes is not cut. *)
Definition PaddedBigBytes (x : Z) (n : nat) : bytes :=
  let b := big.Bytes x in
  repeat x00 (n - length b) ++ b.

(** [ToECDSA], the strict variant: exactly 256 bits, below the group
    order, not zero, and a point that the curve accepts. *)
Definition ToECDSA `{Primitives} (d : bytes)
  : option ecdsa.PrivateKey * option error :=
  if negb (Nat.eqb (8 * length d) 256) then
    (None, Some (errorString "invalid length, need 256 bits"))
  else
    let priv_D := big.SetBytes d in
    if secp256k1N <=? priv_D then
      (None, Some (errorString "invalid private key, >=N"))
    else if priv_D <=? 0 then
      (None, Some (errorString "invalid private key, zero or negative"))
    else
      match ScalarBaseMult d with
      | None => (None, Some (errorString "invalid private key"))
      | Some (x, y) =>
          (Some (ecdsa.mkPrivateKey (ecdsa.mkPublicKey x y) priv_D), None)
      end.

(** [HexToECDSA]: parses a secp256k1 private key. *)
Definition HexToECDSA `{Primitives} (hexkey : bytes)
  : option ecdsa.PrivateKey * option error :=
  let '(b, err) := hex.DecodeString hexkey in
  match err with
  | Some _ => (None, Some (errorString "invalid hex string"))
  | None => ToECDSA b
  end.

(** [Sign]: the digest must have 32 bytes; the key is then read through
    the pointer and handed over as 32 bytes. *)
Definition Sign `{Primitives} (hash : bytes) (prv : option ecdsa.PrivateKey)
  : outcome (bytes * option error) :=
  if negb (Nat.eqb (length hash) 32) then
    Return ([], Some (errorString "hash is required to be exactly 32 bytes"))
  else
    match prv with
    | None => Panic NilDereference
    | Some k => Return (secp256k1_Sign hash (PaddedBigBytes (ecdsa.D k) 32))
    end.

End crypto.

(** ** Package [types]: the data model *)

(** [Signature]: the two halves of an ECDSA signature and the recovery
    byte. *)
Module Signature.

Record t : Type := mk { R : common.Hash; S : common.Hash; V : byte }.

(** The zero value [Signature{}]. *)
Definition zero : t :=
  mk (repeat x00 common.HashLength) (repeat x00 common.HashLength) x00.

End Signature.

(** [Wallet] holds both the address and the private key of an account. *)
Module Wallet.

Record t : Type := mk {
  ID : bson.ObjectId;
  Address : common.Address;
  PrivateKey : option ecdsa.PrivateKey;
  Admin : bool;
  Operator : bool
}.

Definition setID (v : bson.ObjectId) (w : t) : t :=
  mk v (Address w) (PrivateKey w) (Admin w) (Operator w).
Definition setAddress (v : common.Address) (w : t) : t :=
  mk (ID w) v (PrivateKey w) (Admin w) (Operator w).
Definition setPrivateKey (v : option ecdsa.PrivateKey) (w : t) : t :=
  mk (ID w) (Address w) v (Admin w) (Operator w).
Definition setAdmin (v : bool) (w : t) : t :=
  mk (ID w) (Address w) (PrivateKey w) v (Operator w).
Definition setOperator (v : bool) (w : t) : t :=
  mk (ID w) (Address w) (PrivateKey w) (Admin w) v.

End Wallet.

Module WalletRecord.

Record t : Type := mk {
  ID : bson.ObjectId;
  Address : bytes;
  PrivateKey : bytes;
  Admin : bool;
  Operator : bool
}.

(** The zero value [WalletRecord{}]. *)
Definition zero : t := mk [] [] [] false false.

End WalletRecord.

(** An order and a trade as far as the wallet sees them: the content that
    is hashed, and the two fields that signing writes. *)
Module Order.

Record t (Body : Type) : Type := mk {
  body : Body;
  Hash : common.Hash;
  Signature : option Signature.t
}.

End Order.

Module Trade.

Record t (Body : Type) : Type := mk {
  body : Body;
  Hash : common.Hash;
  Signature : option Signature.t
}.

End Trade.

(** The BSON decoder of the storage layer: [raw.Unmarshal(decoded)] gives
    the record it filled and its error. *)
Class Storage : Type := {
  Raw : Type;
  Unmarshal : Raw -> WalletRecord.t * option error
}.

(** The orders and trades of the engine, with their [ComputeHash]. *)
Class Signables : Type := {
  OrderBody : Type;
  Order_ComputeHash : Order.t OrderBody -> common.Hash;
  TradeBody : Type;
  Trade_ComputeHash : Trade.t TradeBody -> common.Hash
}.

(** ** Slices *)

(** [b[lo:hi]] and [b[i]]; outside the slice both panic. *)
Definition slice (b : bytes) (lo hi : nat) : outcome bytes :=
  if Nat.leb lo hi && Nat.leb hi (length b)
  then Return (firstn (hi - lo) (skipn lo b))
  else Panic OutOfRange.

Definition index (b : bytes) (i : nat) : outcome byte :=
  match nth_error b i with
  | Some x => Return x
  | None => Panic OutOfRange
  end.

(** ** Package [types]: the wallet *)

(** What [log.Print] wrote, oldest first. *)
Definition Log := list error.

Definition logIf (err : option error) : Log :=
  match err with
  | Some e => [e]
  | None => []
  end.

Section WalletCode.

Context {prim : Primitives} {store : Storage} {dom : Signables}.

(** [NewWallet] returns a new wallet object corresponding to a random
    private key.  The error of the generator is dropped. *)
Definition NewWallet (rand : RandSource) : outcome Wallet.t :=
  let '(privateKey, _) := GenerateKey rand in
  match privateKey with
  | None => Panic NilDereference
  | Some k =>
      let address := PubkeyToAddress (ecdsa.Public k) in
      Return (Wallet.mk [] address (Some k) false false)
  end.

(** [NewWalletFromPrivateKey] returns a new wallet object corresponding to
    a given private key.  An error is printed, and the key is used all the
    same. *)
Definition NewWalletFromPrivateKey (key : bytes) : outcome Wallet.t * Log :=
  let '(privateKey, err) := crypto.HexToECDSA key in
  let log := logIf err in
  match privateKey with
  | None => (Panic NilDereference, log)
  | Some k =>
      (Return (Wallet.mk [] (PubkeyToAddress (ecdsa.Public k)) (Some k)
                 false false), log)
  end.

(** [GetAddress] returns the wallet address. *)
Definition GetAddress (w : Wallet.t) : bytes := common.Hex (Wallet.Address w).

(** [GetPrivateKey] returns the wallet private key. *)
Definition GetPrivateKey (w : Wallet.t) : outcome bytes :=
  match Wallet.PrivateKey w with
  | None => Panic NilDereference
  | Some k => Return (hex.EncodeToString (big.Bytes (ecdsa.D k)))
  end.

Definition Validate (w : Wallet.t) : option error := None.

Definition GetBSON (w : Wallet.t) : outcome (WalletRecord.t * option error) :=
  match Wallet.PrivateKey w with
  | None => Panic NilDereference
  | Some k =>
      Return (WalletRecord.mk
                (Wallet.ID w)
                (common.Hex (Wallet.Address w))
                (hex.EncodeToString (big.Bytes (ecdsa.D k)))
                (Wallet.Admin w)
                false,
              None)
  end.

(** [SetBSON] writes through the receiver: the wallet after the call is
    returned with the error. *)
Definition SetBSON (w : Wallet.t) (raw : Raw)
  : (Wallet.t * option error) * Log :=
  let '(decoded, err) := Unmarshal raw in
  match err with
  | Some e => ((w, Some e), [e])
  | None =>
      let w := Wallet.setID (WalletRecord.ID decoded) w in
      let w := Wallet.setAddress
                 (common.HexToAddress (WalletRecord.Address decoded)) w in
      let '(key, err) := crypto.HexToECDSA (WalletRecord.PrivateKey decoded) in
      let w := Wallet.setPrivateKey key w in
      match err with
      | Some e => ((w, Some e), [e])
      | None =>
          let w := Wallet.setAdmin (WalletRecord.Admin decoded) w in
          let w := Wallet.setOperator (WalletRecord.Operator decoded) w in
          ((w, None), [])
      end
  end.

(** The prefix of a signed message, byte [0x19] first and a line feed
    before the length. *)
Definition preamble : bytes :=
  x19 :: str "Ethereum Signed Message:" ++ x0a :: str "32".

(** [SignHash] signs a hashed message with a wallet private key and
    returns it as a Signature object. *)
Definition SignHash (w : Wallet.t) (h : common.Hash)
  : outcome (Signature.t * option error) :=
  let message := crypto.Keccak256 [preamble; (h : bytes)] in
  r <- crypto.Sign message (Wallet.PrivateKey w) ;;
  let '(sigBytes, err) := r in
  match err with
  | Some e => Return (Signature.zero, Some e)
  | None =>
      r_ <- slice sigBytes 0 32 ;;
      s_ <- slice sigBytes 32 64 ;;
      v_ <- index sigBytes 64 ;;
      Return (Signature.mk (common.BytesToHash r_) (common.BytesToHash s_)
                (byte_add v_ (byte_of_Z 27)),
              None)
  end.

(** [SignTrade] signs and sets the signature of a trade with a wallet
    private key.  The trade after the call is returned with the error. *)
Definition SignTrade (w : Wallet.t) (t : Trade.t TradeBody)
  : outcome (Trade.t TradeBody * option error) :=
  let hash := Trade_ComputeHash t in
  r <- SignHash w hash ;;
  let '(sig, err) := r in
  match err with
  | Some e => Return (t, Some e)
  | None => Return (Trade.mk (Trade.body t) hash (Some sig), None)
  end.

Definition SignOrder (w : Wallet.t) (o : Order.t OrderBody)
  : outcome (Order.t OrderBody * option error) :=
  let hash := Order_ComputeHash o in
  r <- SignHash w hash ;;
  let '(sig, err) := r in
  match err with
  | Some e => Return (o, Some e)
  | None => Return (Order.mk (Order.body o) hash (Some sig), None)
  end.

End WalletCode.

(** ** A test double for the collaborators

    Small total stand-ins, so that the wallet code runs on concrete inputs.
    The signer rejects the scalar 1 and otherwise returns the digest, the
    scalar and a recovery byte; the generator succeeds on [true] only. *)
Module Double.

Definition sign (hash seckey : bytes) : bytes * option error :=
  if big.SetBytes seckey =? 1 then ([], Some (foreignError 1))
  else (hash ++ seckey ++ [x01], None).

Definition key7 : ecdsa.PrivateKey :=
  ecdsa.mkPrivateKey (ecdsa.mkPublicKey 7 1) 7.

Definition primitives : Primitives := {|
  keccak := fun b => repeat xa7 32;
  ScalarBaseMult := fun d => Some (big.SetBytes d, 1);
  secp256k1_Sign := sign;
  PubkeyToAddress := fun p => common.BytesToAddress (big.Bytes (ecdsa.X p));
  RandSource := bool;
  GenerateKey := fun ok =>
    if ok then (Some key7, None) else (None, Some (foreignError 2))
|}.

(** A stored document is the record it decodes to, or damaged. *)
Definition storage : Storage := {|
  Raw := option WalletRecord.t;
  Unmarshal := fun raw =>
    match raw with
    | Some r => (r, None)
    | None => (WalletRecord.zero, Some (foreignError 3))
    end
|}.

Definition signables : Signables := {|
  OrderBody := bytes;
  Order_ComputeHash := fun o => common.BytesToHash (Order.body o);
  TradeBody := bytes;
  Trade_ComputeHash := fun t => common.BytesToHash (Trade.body t)
|}.

Definition wallet (d : Z) : Wallet.t :=
  Wallet.mk (str "id-1") (common.BytesToAddress (big.Bytes d))
    (Some (ecdsa.mkPrivateKey (ecdsa.mkPublicKey d 1) d)) true true.

Definition digestAA : common.Hash := repeat xaa 32.

End Double.

(** * Properties *)

(** ** Bytes *)

Lemma byte_to_Z_range (b : byte) : 0 <= byte_to_Z b < 256.
Proof.
  unfold byte_to_Z. pose proof (Byte.to_N_bounded b). lia.
Qed.


Lemma byte_to_of_Z (z : Z) : byte_to_Z (byte_of_Z z) = z mod 256.
Proof.
  unfold byte_of_Z, byte_to_Z.
  pose proof (Z.mod_pos_bound z 256 ltac:(lia)) as Hm.
  destruct (Byte.of_N (Z.to_N (z mod 256))) as [b|] eqn:E.
  - apply Byte.to_of_N in E. rewrite E. lia.
  - apply Byte.of_N_None_iff in E. lia.
Qed.


Lemma byte_add_to_Z (a b : byte) :
  byte_to_Z (byte_add a b) = (byte_to_Z a + byte_to_Z b) mod 256.
Proof. unfold byte_add. apply byte_to_of_Z. Qed.

(** ** Fixed-size arrays *)

Lemma setBytes_length (n : nat) (b : bytes) :
  length (common.setBytes n b) = n.
Proof.
  unfold common.setBytes.
  destruct (Nat.ltb n (length b)) eqn:E.
  - apply Nat.ltb_lt in E.
    rewrite length_app, repeat_length, length_skipn. lia.
  - apply Nat.ltb_ge in E. rewrite length_app, repeat_length. lia.
Qed.

Lemma setBytes_exact (n : nat) (b : bytes) :
  length b = n -> common.setBytes n b = b.
Proof.
  intros <-. unfold common.setBytes.
  rewrite Nat.ltb_irrefl, Nat.sub_diag. reflexivity.
Qed.

Lemma BytesToAddress_length (b : bytes) :
  length (common.BytesToAddress b) = 20%nat.
Proof. apply setBytes_length. Qed.

Lemma BytesToHash_length (b : bytes) :
  length (common.BytesToHash b) = 32%nat.
Proof. apply setBytes_length. Qed.

Lemma HexToAddress_length (s : bytes) :
  length (common.HexToAddress s) = 20%nat.
Proof. apply BytesToAddress_length. Qed.

(** ** Hexadecimal text *)

Lemma EncodeToString_length (b : bytes) :
  length (hex.EncodeToString b) = (2 * length b)%nat.
Proof.
  induction b as [|v b IH]; simpl; [reflexivity | rewrite IH; lia].
Qed.

Lemma DecodeString_EncodeByte (v : byte) (rest : bytes) :
  hex.DecodeString (hex.EncodeByte v ++ rest) =
  let '(out, err) := hex.DecodeString rest in (v :: out, err).
Proof. destruct v; reflexivity. Qed.

(** Decoding undoes encoding. *)
Lemma DecodeString_EncodeToString (b : bytes) :
  hex.DecodeString (hex.EncodeToString b) = (b, None).
Proof.
  induction b as [|v b IH].
  - reflexivity.
  - cbn [hex.EncodeToString]. rewrite DecodeString_EncodeByte, IH. reflexivity.
Qed.

(** Induction over a list two elements at a time. *)
Lemma pair_induction (A : Type) (P : list A -> Prop) :
  P [] -> (forall x, P [x]) ->
  (forall x y l, P l -> P (x :: y :: l)) ->
  forall l, P l.
Proof.
  intros H0 H1 H2.
  assert (Hboth : forall l, P l /\ forall x, P (x :: l)).
  { induction l as [|y l [IHl IHyl]]; split; auto. }
  intros l. apply Hboth.
Qed.

(** A decoding without error read an even number of digits, two for each
    byte it gives. *)
Lemma DecodeString_ok_length (s out : bytes) :
  hex.DecodeString s = (out, None) -> length s = (2 * length out)%nat.
Proof.
  revert out. induction s as [|c|c1 c2 rest IH] using pair_induction;
    intros out; cbn [hex.DecodeString].
  - intros [= <-]. reflexivity.
  - destruct (hex.fromHexChar c); discriminate.
  - destruct (hex.fromHexChar c1); [|discriminate].
    destruct (hex.fromHexChar c2); [|discriminate].
    destruct (hex.DecodeString rest) as [out' err'] eqn:E.
    intros [= <- ->]. cbn [length].
    rewrite (IH out' eq_refl). lia.
Qed.

(** The case of a digit does not change its value. *)
Lemma fromHexChar_checksum (v : byte) (up1 up2 : bool) (rest : bytes) :
  let c1 := nth 0 (hex.EncodeByte v) x00 in
  let c2 := nth 1 (hex.EncodeByte v) x00 in
  let c1' := if (57 <? byte_to_Z c1) && up1
             then byte_of_Z (byte_to_Z c1 - 32) else c1 in
  let c2' := if (57 <? byte_to_Z c2) && up2
             then byte_of_Z (byte_to_Z c2 - 32) else c2 in
  hex.DecodeString (c1' :: c2' :: rest) =
  let '(out, err) := hex.DecodeString rest in (v :: out, err).
Proof. destruct v, up1, up2; reflexivity. Qed.

Lemma checksumCase_length (hash : bytes) (s : bytes) (i : nat) :
  length (common.checksumCase hash i s) = length s.
Proof.
  revert i. induction s as [|c s IH]; intros i; simpl;
    [reflexivity | rewrite IH; reflexivity].
Qed.

Lemma DecodeString_checksumCase (hash : bytes) (b : bytes) (i : nat) :
  hex.DecodeString (common.checksumCase hash i (hex.EncodeToString b)) =
  (b, None).
Proof.
  revert i. induction b as [|v b IH]; intros i.
  - reflexivity.
  - cbn [hex.EncodeToString hex.EncodeByte app common.checksumCase].
    match goal with
    | |- hex.DecodeString
           ((if _ && (7 <? ?h1) then _ else _) ::
            (if _ && (7 <? ?h2) then _ else _) :: _) = _ =>
        pose proof (fromHexChar_checksum v (7 <? h1) (7 <? h2)
          (common.checksumCase hash (S (S i)) (hex.EncodeToString b))) as E
    end.
    cbn [hex.EncodeByte nth] in E. cbv zeta in E.
    rewrite E, IH. reflexivity.
Qed.

Section AddressText.

Context {prim : Primitives}.

Lemma Hex_length (a : common.Address) :
  length (common.Hex a) = (2 + 2 * length a)%nat.
Proof.
  unfold common.Hex.
  rewrite length_app, checksumCase_length, EncodeToString_length.
  reflexivity.
Qed.

Lemma FromHex_Hex (a : common.Address) : common.FromHex (common.Hex a) = a.
Proof.
  unfold common.FromHex, common.Hex.
  change (str "0x") with ["0"%byte; "x"%byte].
  cbn [app common.has0xPrefix skipn].
  change (byte_eqb "0" "0" && (byte_eqb "x" "x" || byte_eqb "x" "X"))
    with true. cbv iota.
  rewrite checksumCase_length, EncodeToString_length.
  replace (Nat.odd (2 * length a)) with false.
  - unfold common.Hex2Bytes. rewrite DecodeString_checksumCase. reflexivity.
  - symmetry. rewrite <- Nat.negb_even, Nat.even_mul. reflexivity.
Qed.

(** Reading the text of an address gives the address back. *)
Lemma HexToAddress_Hex (a : common.Address) :
  length a = 20%nat -> common.HexToAddress (common.Hex a) = a.
Proof.
  intros Hlen. unfold common.HexToAddress. rewrite FromHex_Hex.
  apply setBytes_exact. exact Hlen.
Qed.

End AddressText.

(** ** Big integers as bytes *)

Lemma SetBytes_snoc (l : bytes) (b : byte) :
  big.SetBytes (l ++ [b]) = big.SetBytes l * 256 + byte_to_Z b.
Proof. unfold big.SetBytes. rewrite fold_left_app. reflexivity. Qed.

Lemma digits_value (fuel : nat) :
  forall n, 0 <= n < 256 ^ Z.of_nat fuel ->
  big.SetBytes (rev (big.digits fuel n)) = n.
Proof.
  induction fuel as [|fuel IH]; intros n Hn.
  - change (256 ^ Z.of_nat 0) with 1 in Hn. cbn. lia.
  - cbn [big.digits]. destruct (n =? 0) eqn:E.
    + apply Z.eqb_eq in E. subst n. reflexivity.
    + cbn [rev]. rewrite SetBytes_snoc, byte_to_of_Z, IH.
      * rewrite Z.mod_mod by lia. pose proof (Z_div_mod_eq_full n 256). lia.
      * rewrite Nat2Z.inj_succ, Z.pow_succ_r in Hn by lia.
        split; [apply Z.div_pos; lia|].
        apply Z.div_lt_upper_bound; lia.
Qed.

Lemma digits_length_le (fuel : nat) :
  forall n (k : nat), 0 <= n < 256 ^ Z.of_nat k ->
  (length (big.digits fuel n) <= k)%nat.
Proof.
  induction fuel as [|fuel IH]; intros n k Hn; cbn [big.digits].
  - cbn. lia.
  - destruct (n =? 0) eqn:E; [cbn; lia|].
    apply Z.eqb_neq in E. destruct k as [|k].
    + change (256 ^ Z.of_nat 0) with 1 in Hn. lia.
    + cbn [length]. apply le_n_S. apply IH.
      rewrite Nat2Z.inj_succ, Z.pow_succ_r in Hn by lia.
      split; [apply Z.div_pos; lia|].
      apply Z.div_lt_upper_bound; lia.
Qed.

Lemma digits_length_gt (fuel : nat) :
  forall n (k : nat), 256 ^ Z.of_nat k <= n -> (k < fuel)%nat ->
  (k < length (big.digits fuel n))%nat.
Proof.
  induction fuel as [|fuel IH]; intros n k Hn Hk; [lia|].
  cbn [big.digits].
  assert (0 < 256 ^ Z.of_nat k) by (apply Z.pow_pos_nonneg; lia).
  destruct (n =? 0) eqn:E; [apply Z.eqb_eq in E; lia|].
  cbn [length]. destruct k as [|k]; [lia|].
  apply -> Nat.succ_lt_mono. apply IH; [|lia].
  rewrite Nat2Z.inj_succ, Z.pow_succ_r in Hn by lia.
  apply Z.div_le_lower_bound; lia.
Qed.

Lemma log2_fuel (x : Z) :
  0 <= x -> x < 256 ^ Z.of_nat (Z.to_nat (Z.log2 x) + 1).
Proof.
  intros Hx.
  assert (Hl : 0 <= Z.log2 x) by apply Z.log2_nonneg.
  rewrite Nat2Z.inj_add, Z2Nat.id by lia. change (Z.of_nat 1) with 1.
  destruct (Z.eq_dec x 0) as [->|Hne].
  - change (Z.log2 0) with 0. reflexivity.
  - pose proof (Z.log2_spec x ltac:(lia)) as [_ Hlt].
    apply Z.lt_le_trans with (1 := Hlt).
    change 256 with (2 ^ 8). rewrite <- Z.pow_mul_r by lia.
    rewrite <- Z.add_1_r. apply Z.pow_le_mono_r; lia.
Qed.

(** [SetBytes] reads back what [Bytes] wrote. *)
Lemma SetBytes_Bytes (x : Z) : 0 <= x -> big.SetBytes (big.Bytes x) = x.
Proof.
  intros Hx. unfold big.Bytes. rewrite Z.abs_eq by exact Hx.
  apply digits_value. split; [exact Hx | apply log2_fuel; exact Hx].
Qed.

(** The scalars of full width are those with a non-zero first byte. *)
Lemma Bytes_length_full (x : Z) :
  2 ^ 248 <= x < 2 ^ 256 -> length (big.Bytes x) = 32%nat.
Proof.
  intros [Hlo Hhi]. unfold big.Bytes.
  rewrite Z.abs_eq by lia. rewrite length_rev.
  apply Nat.le_antisymm.
  - apply digits_length_le. change (256 ^ Z.of_nat 32) with (2 ^ 256). lia.
  - apply digits_length_gt with (k := 31%nat).
    + change (256 ^ Z.of_nat 31) with (2 ^ 248). exact Hlo.
    + assert (248 <= Z.log2 x).
      { change 248 with (Z.log2 (2 ^ 248)). apply Z.log2_le_mono. exact Hlo. }
      lia.
Qed.

Lemma Bytes_length_short (x : Z) :
  0 <= x < 2 ^ 248 -> (length (big.Bytes x) <= 31)%nat.
Proof.
  intros [Hlo Hhi]. unfold big.Bytes.
  rewrite Z.abs_eq by lia. rewrite length_rev.
  apply digits_length_le. change (256 ^ Z.of_nat 31) with (2 ^ 248). lia.
Qed.

(** ** Parsing a private key *)

Section KeyParsing.

Context {prim : Primitives}.

(** [ToECDSA] and [HexToECDSA] return a key or an error, never both and
    never neither. *)
Lemma ToECDSA_cases (d : bytes) :
  (exists e, crypto.ToECDSA d = (None, Some e)) \/
  (exists k, crypto.ToECDSA d = (Some k, None)).
Proof.
  unfold crypto.ToECDSA.
  destruct (negb _); [left; eauto|].
  destruct (_ <=? big.SetBytes d); [left; eauto|].
  destruct (big.SetBytes d <=? 0); [left; eauto|].
  destruct (ScalarBaseMult d) as [[x y]|]; [right|left]; eauto.
Qed.

Lemma HexToECDSA_cases (hexkey : bytes) :
  (exists e, crypto.HexToECDSA hexkey = (None, Some e)) \/
  (exists k, crypto.HexToECDSA hexkey = (Some k, None)).
Proof.
  unfold crypto.HexToECDSA.
  destruct (hex.DecodeString hexkey) as [b [e|]]; [left; eauto|].
  apply ToECDSA_cases.
Qed.

(** A text that is not made of pairs of digits is no key. *)
Lemma HexToECDSA_bad_text (hexkey b : bytes) (e : error) :
  hex.DecodeString hexkey = (b, Some e) ->
  crypto.HexToECDSA hexkey = (None, Some (errorString "invalid hex string")).
Proof. intros E. unfold crypto.HexToECDSA. rewrite E. reflexivity. Qed.

(** Digits for other than 32 bytes are no key. *)
Lemma HexToECDSA_bad_length (hexkey : bytes) :
  length hexkey <> 64%nat ->
  exists e, crypto.HexToECDSA hexkey = (None, Some e).
Proof.
  intros Hlen. unfold crypto.HexToECDSA.
  destruct (hex.DecodeString hexkey) as [b [e|]] eqn:E; [eauto|].
  apply DecodeString_ok_length in E. unfold crypto.ToECDSA.
  destruct (Nat.eqb (8 * length b) 256) eqn:E8.
  - apply Nat.eqb_eq in E8. lia.
  - cbn [negb]. eauto.
Qed.

(** The text that [GetPrivateKey] and [GetBSON] write for a scalar below
    [2^248] is rejected for its length. *)
Lemma HexToECDSA_short_scalar (x : Z) :
  0 <= x < 2 ^ 248 ->
  crypto.HexToECDSA (hex.EncodeToString (big.Bytes x)) =
  (None, Some (errorString "invalid length, need 256 bits")).
Proof.
  intros Hx. unfold crypto.HexToECDSA.
  rewrite DecodeString_EncodeToString. unfold crypto.ToECDSA.
  pose proof (Bytes_length_short Hx) as Hlen.
  destruct (Nat.eqb (8 * length (big.Bytes x)) 256) eqn:E8.
  - apply Nat.eqb_eq in E8. lia.
  - reflexivity.
Qed.

(** The text written for a valid scalar of full width is read back as the
    scalar, with the public key the curve gives for it. *)
Lemma HexToECDSA_full_scalar (x px py : Z) :
  2 ^ 248 <= x < crypto.secp256k1N ->
  ScalarBaseMult (big.Bytes x) = Some (px, py) ->
  crypto.HexToECDSA (hex.EncodeToString (big.Bytes x)) =
  (Some (ecdsa.mkPrivateKey (ecdsa.mkPublicKey px py) x), None).
Proof.
  intros [Hlo Hhi] Hmul. unfold crypto.HexToECDSA.
  rewrite DecodeString_EncodeToString. unfold crypto.ToECDSA.
  assert (HN : crypto.secp256k1N < 2 ^ 256) by reflexivity.
  assert (H248 : 0 < 2 ^ 248) by reflexivity.
  rewrite Bytes_length_full by lia.
  change (negb (Nat.eqb (8 * 32) 256)) with false. cbv iota.
  rewrite SetBytes_Bytes by lia.
  destruct (crypto.secp256k1N <=? x) eqn:E1; [apply Z.leb_le in E1; lia|].
  destruct (x <=? 0) eqn:E2; [apply Z.leb_le in E2; lia|].
  rewrite Hmul. reflexivity.
Qed.

(** What is rejected: a text that does not decode, other than 32 bytes,
    a value from the group order up, or zero. *)
Lemma HexToECDSA_rejects_malformed (hexkey : bytes) :
  let b := fst (hex.DecodeString hexkey) in
  snd (hex.DecodeString hexkey) <> None \/ length b <> 32%nat \/
  crypto.secp256k1N <= big.SetBytes b \/ big.SetBytes b <= 0 ->
  exists e, snd (crypto.HexToECDSA hexkey) = Some e.
Proof.
  unfold crypto.HexToECDSA.
  destruct (hex.DecodeString hexkey) as [b [e|]]; cbn [fst snd]; [eauto|].
  unfold crypto.ToECDSA. intros [H|[H|[H|H]]].
  - congruence.
  - destruct (Nat.eqb (8 * length b) 256) eqn:E8; cbn [negb snd]; [|eauto].
    apply Nat.eqb_eq in E8. lia.
  - destruct (negb _); cbn [snd]; [eauto|].
    destruct (crypto.secp256k1N <=? big.SetBytes b) eqn:E; cbn [snd]; [eauto|].
    apply Z.leb_gt in E. lia.
  - destruct (negb _); cbn [snd]; [eauto|].
    destruct (crypto.secp256k1N <=? big.SetBytes b); cbn [snd]; [eauto|].
    destruct (big.SetBytes b <=? 0) eqn:E; cbn [snd]; [eauto|].
    apply Z.leb_gt in E. lia.
Qed.

(** What is accepted: 32 bytes for a scalar in range, with a point. *)
Lemma HexToECDSA_accepts (hexkey b : bytes) (x y : Z) :
  hex.DecodeString hexkey = (b, None) ->
  length b = 32%nat ->
  0 < big.SetBytes b < crypto.secp256k1N ->
  ScalarBaseMult b = Some (x, y) ->
  crypto.HexToECDSA hexkey =
  (Some (ecdsa.mkPrivateKey (ecdsa.mkPublicKey x y) (big.SetBytes b)), None).
Proof.
  intros Hdec Hlen [Hlo Hhi] Hmul. unfold crypto.HexToECDSA, crypto.ToECDSA.
  rewrite Hdec, Hlen. change (negb (Nat.eqb (8 * 32) 256)) with false.
  cbv iota.
  destruct (crypto.secp256k1N <=? big.SetBytes b) eqn:E1;
    [apply Z.leb_le in E1; lia|].
  destruct (big.SetBytes b <=? 0) eqn:E2; [apply Z.leb_le in E2; lia|].
  rewrite Hmul. reflexivity.
Qed.

End KeyParsing.

(** ** Signing a digest *)

Section Signing.

Context {prim : Primitives}.

Lemma Keccak256_preamble (h : bytes) :
  crypto.Keccak256 [preamble; h] = keccak (preamble ++ h).
Proof. unfold crypto.Keccak256. cbn [concat]. rewrite app_nil_r. reflexivity. Qed.

(** What [SignHash] makes of the 65 bytes of a signature. *)
Lemma SignHash_ok (w : Wallet.t) (h sigBytes : bytes) :
  crypto.Sign (keccak (preamble ++ h)) (Wallet.PrivateKey w)
    = Return (sigBytes, None) ->
  length sigBytes = 65%nat ->
  SignHash w h =
  Return (Signature.mk (firstn 32 sigBytes) (firstn 32 (skipn 32 sigBytes))
            (byte_add (nth 64 sigBytes x00) (byte_of_Z 27)),
          None).
Proof.
  intros Hsign Hlen. unfold SignHash. cbv zeta.
  rewrite Keccak256_preamble, Hsign. cbn [obind].
  unfold slice, index. rewrite Hlen. cbn [Nat.leb andb obind Nat.sub].
  rewrite (nth_error_nth' sigBytes x00) by lia. cbn [obind].
  unfold common.BytesToHash.
  rewrite !setBytes_exact; [reflexivity | |];
    rewrite ?length_firstn, ?length_skipn, Hlen; reflexivity.
Qed.

Lemma SignHash_error (w : Wallet.t) (h sigBytes : bytes) (e : error) :
  crypto.Sign (crypto.Keccak256 [preamble; h]) (Wallet.PrivateKey w)
    = Return (sigBytes, Some e) ->
  SignHash w h = Return (Signature.zero, Some e).
Proof.
  intros Hsign. unfold SignHash. cbv zeta. rewrite Hsign. reflexivity.
Qed.

(** A signature of fewer than 65 bytes stops the program. *)
Lemma SignHash_short (w : Wallet.t) (h sigBytes : bytes) :
  crypto.Sign (crypto.Keccak256 [preamble; h]) (Wallet.PrivateKey w)
    = Return (sigBytes, None) ->
  (length sigBytes < 65)%nat ->
  SignHash w h = Panic OutOfRange.
Proof.
  intros Hsign Hlen. unfold SignHash. cbv zeta. rewrite Hsign. cbn [obind].
  assert (Hidx : index sigBytes 64 = Panic OutOfRange).
  { unfold index. destruct (nth_error sigBytes 64) eqn:E; [|reflexivity].
    assert (nth_error sigBytes 64 <> None) as Hn by congruence.
    apply nth_error_Some in Hn. lia. }
  rewrite Hidx. unfold slice.
  destruct (_ && _); [|reflexivity].
  destruct (_ && _); reflexivity.
Qed.

End Signing.

(** C1. For a 32-byte digest [d] and a wallet whose private scalar is
    valid, [SignHash] hashes the 28 bytes of the preamble, byte [0x19]
    then "Ethereum Signed Message:", a line feed and "32", followed by
    [d]; when signing that 32-byte message with the scalar gives 65 bytes,
    the result is the signature whose [R] is bytes 0 to 31, whose [S] is
    bytes 32 to 63 and whose [V] is byte 64 plus 27, as a byte; for a
    recovery id, and any byte up to 228, that is the sum itself. *)
Theorem SignHash_splits_signature {prim : Primitives}
    (w : Wallet.t) (key : ecdsa.PrivateKey) (d sigBytes : bytes) :
  length d = 32%nat ->
  Wallet.PrivateKey w = Some key ->
  0 < ecdsa.D key < crypto.secp256k1N ->
  let message :=
    keccak ([x19; x45; x74; x68; x65; x72; x65; x75; x6d; x20; x53; x69;
             x67; x6e; x65; x64; x20; x4d; x65; x73; x73; x61; x67; x65;
             x3a; x0a; x33; x32] ++ d) in
  length message = 32%nat ->
  secp256k1_Sign message (crypto.PaddedBigBytes (ecdsa.D key) 32)
    = (sigBytes, None) ->
  length sigBytes = 65%nat ->
  exists sig,
    SignHash w d = Return (sig, None) /\
    Signature.R sig = firstn 32 sigBytes /\
    Signature.S sig = firstn 32 (skipn 32 sigBytes) /\
    byte_to_Z (Signature.V sig) = (byte_to_Z (nth 64 sigBytes x00) + 27) mod 256 /\
    (byte_to_Z (nth 64 sigBytes x00) <= 228 ->
     byte_to_Z (Signature.V sig) = byte_to_Z (nth 64 sigBytes x00) + 27).
Proof.
  intros Hd Hkey Hvalid message Hmsg Hsign Hlen.
  assert (Hcall : crypto.Sign (keccak (preamble ++ d)) (Wallet.PrivateKey w)
                  = Return (sigBytes, None)).
  { unfold crypto.Sign. change preamble with
      [x19; x45; x74; x68; x65; x72; x65; x75; x6d; x20; x53; x69;
       x67; x6e; x65; x64; x20; x4d; x65; x73; x73; x61; x67; x65;
       x3a; x0a; x33; x32].
    fold message. rewrite Hmsg, Hkey. cbn [Nat.eqb negb]. rewrite Hsign.
    reflexivity. }
  eexists. split; [apply SignHash_ok; eassumption|].
  cbn [Signature.R Signature.S Signature.V].
  assert (HV : byte_to_Z (byte_add (nth 64 sigBytes x00) (byte_of_Z 27))
               = (byte_to_Z (nth 64 sigBytes x00) + 27) mod 256).
  { rewrite byte_add_to_Z. reflexivity. }
  repeat split; try exact HV.
  intros Hrec. rewrite HV.
  pose proof (byte_to_Z_range (nth 64 sigBytes x00)).
  apply Z.mod_small. lia.
Qed.

Lemma SignHash_splits_signature_witness :
  exists sig,
    @SignHash Double.primitives (Double.wallet 7) Double.digestAA
      = Return (sig, None) /\
    Signature.R sig = repeat xa7 32 /\
    Signature.S sig = repeat x00 31 ++ [x07] /\
    byte_to_Z (Signature.V sig) = 28 mod 256 /\
    (1 <= 228 -> byte_to_Z (Signature.V sig) = 28).
Proof.
  apply (@SignHash_splits_signature Double.primitives (Double.wallet 7)
           (ecdsa.mkPrivateKey (ecdsa.mkPublicKey 7 1) 7) Double.digestAA
           (repeat xa7 32 ++ (repeat x00 31 ++ [x07]) ++ [x01]));
    try reflexivity.
  split; reflexivity.
Defined.

(** C6. Whenever signing fails, [SignHash] returns the error with the
    zero [Signature]: 32 zero bytes for [R], 32 zero bytes for [S] and
    a zero [V]. *)
Theorem SignHash_failure_zero_signature {prim : Primitives}
    (w : Wallet.t) (d sigBytes : bytes) (e : error) :
  crypto.Sign (crypto.Keccak256 [preamble; d]) (Wallet.PrivateKey w)
    = Return (sigBytes, Some e) ->
  SignHash w d =
  Return (Signature.mk (repeat x00 32) (repeat x00 32) x00, Some e).
Proof. intros Hsign. apply SignHash_error with (1 := Hsign). Qed.

Lemma SignHash_failure_zero_signature_witness :
  @SignHash Double.primitives (Double.wallet 1) Double.digestAA =
  Return (Signature.mk (repeat x00 32) (repeat x00 32) x00,
          Some (foreignError 1)).
Proof.
  apply (@SignHash_failure_zero_signature Double.primitives
           (Double.wallet 1) Double.digestAA []).
  reflexivity.
Defined.

(** ** Signing orders and trades *)

(** C5. [SignOrder] and [SignTrade] write both fields or none: when
    [SignHash] succeeds on the computed hash, the order (the trade) after
    the call holds that hash and the signature produced, its content
    untouched, and no error is returned; when [SignHash] returns an error,
    that error is returned and the order (the trade) is as it was. *)
Theorem SignOrder_SignTrade_all_or_nothing
    {prim : Primitives} {dom : Signables}
    (w : Wallet.t) (o : Order.t OrderBody) (t : Trade.t TradeBody) :
  (forall sig, SignHash w (Order_ComputeHash o) = Return (sig, None) ->
     exists o', SignOrder w o = Return (o', None) /\
                Order.Hash o' = Order_ComputeHash o /\
                Order.Signature o' = Some sig /\
                Order.body o' = Order.body o) /\
  (forall sig e, SignHash w (Order_ComputeHash o) = Return (sig, Some e) ->
     SignOrder w o = Return (o, Some e)) /\
  (forall sig, SignHash w (Trade_ComputeHash t) = Return (sig, None) ->
     exists t', SignTrade w t = Return (t', None) /\
                Trade.Hash t' = Trade_ComputeHash t /\
                Trade.Signature t' = Some sig /\
                Trade.body t' = Trade.body t) /\
  (forall sig e, SignHash w (Trade_ComputeHash t) = Return (sig, Some e) ->
     SignTrade w t = Return (t, Some e)).
Proof.
  repeat split.
  - intros sig Hs. unfold SignOrder. cbv zeta. rewrite Hs. cbn [obind].
    eexists. repeat split.
  - intros sig e Hs. unfold SignOrder. cbv zeta. rewrite Hs. reflexivity.
  - intros sig Hs. unfold SignTrade. cbv zeta. rewrite Hs. cbn [obind].
    eexists. repeat split.
  - intros sig e Hs. unfold SignTrade. cbv zeta. rewrite Hs. reflexivity.
Qed.

Lemma SignOrder_SignTrade_all_or_nothing_witness :
  (exists o', @SignOrder Double.primitives Double.signables (Double.wallet 7)
                (Order.mk (str "order") [] None) = Return (o', None) /\
              Order.Hash o' = common.BytesToHash (str "order") /\
              Order.Signature o' =
                Some (Signature.mk (repeat xa7 32) (repeat x00 31 ++ [x07])
                        (byte_of_Z 28)) /\
              Order.body o' = str "order") /\
  @SignTrade Double.primitives Double.signables (Double.wallet 1)
    (Trade.mk (str "trade") [x01] None) =
  Return (Trade.mk (str "trade") [x01] None, Some (foreignError 1)).
Proof.
  pose proof (@SignOrder_SignTrade_all_or_nothing Double.primitives
                Double.signables (Double.wallet 7)
                (Order.mk (str "order") [] None)
                (Trade.mk (str "trade") [x01] None)) as [Hok _].
  pose proof (@SignOrder_SignTrade_all_or_nothing Double.primitives
                Double.signables (Double.wallet 1)
                (Order.mk (str "order") [] None)
                (Trade.mk (str "trade") [x01] None)) as [_ [_ [_ Herr]]].
  split.
  - apply Hok. reflexivity.
  - apply (Herr Signature.zero). reflexivity.
Defined.

(** A panic inside [SignHash] is passed on before any field is written. *)
Lemma SignOrder_panic {prim : Primitives} {dom : Signables}
    (w : Wallet.t) (o : Order.t OrderBody) (p : panic) :
  SignHash w (Order_ComputeHash o) = Panic p -> SignOrder w o = Panic p.
Proof. intros Hs. unfold SignOrder. cbv zeta. rewrite Hs. reflexivity. Qed.

Lemma SignTrade_panic {prim : Primitives} {dom : Signables}
    (w : Wallet.t) (t : Trade.t TradeBody) (p : panic) :
  SignHash w (Trade_ComputeHash t) = Panic p -> SignTrade w t = Panic p.
Proof. intros Hs. unfold SignTrade. cbv zeta. rewrite Hs. reflexivity. Qed.

(** ** Making a wallet *)

Lemma NewWalletFromPrivateKey_ok {prim : Primitives}
    (key : bytes) (k : ecdsa.PrivateKey) :
  crypto.HexToECDSA key = (Some k, None) ->
  NewWalletFromPrivateKey key =
  (Return (Wallet.mk [] (PubkeyToAddress (ecdsa.Public k)) (Some k)
             false false), []).
Proof. intros E. unfold NewWalletFromPrivateKey. rewrite E. reflexivity. Qed.

(** C3, as the code has it.  When the text is rejected, the error is only
    printed: the nil key is then read, which stops the program.  No error
    value reaches the caller, and no wallet either. *)
Theorem NewWalletFromPrivateKey_rejected_key_panics {prim : Primitives}
    (key : bytes) (e : error) :
  snd (crypto.HexToECDSA key) = Some e ->
  NewWalletFromPrivateKey key = (Panic NilDereference, [e]).
Proof.
  intros He. unfold NewWalletFromPrivateKey.
  destruct (HexToECDSA_cases key) as [[e' E]|[k E]]; rewrite E in *.
  - cbn in He. injection He as ->. reflexivity.
  - discriminate.
Qed.

Lemma NewWalletFromPrivateKey_rejected_key_panics_witness :
  @NewWalletFromPrivateKey Double.primitives (str "not-hex") =
  (Panic NilDereference, [errorString "invalid hex string"]).
Proof.
  apply (@NewWalletFromPrivateKey_rejected_key_panics Double.primitives
           (str "not-hex")).
  reflexivity.
Defined.

(** Keys of each malformed kind, on any primitives: not digits, an odd
    number of digits, too few digits, and the group order itself. *)
Lemma NewWalletFromPrivateKey_examples {prim : Primitives} :
  NewWalletFromPrivateKey (str "not-hex") =
    (Panic NilDereference, [errorString "invalid hex string"]) /\
  NewWalletFromPrivateKey (str "abc") =
    (Panic NilDereference, [errorString "invalid hex string"]) /\
  NewWalletFromPrivateKey (str "0123") =
    (Panic NilDereference, [errorString "invalid length, need 256 bits"]) /\
  NewWalletFromPrivateKey
    (str "fffffffffffffffffffffffffffffffebaaedce6af48a03bbfd25e8cd0364141") =
    (Panic NilDereference, [errorString "invalid private key, >=N"]).
Proof. repeat split; reflexivity. Qed.

(** C4, as the code has it.  The error of the generator is dropped; when
    the generator fails and gives no key, reading the public key through
    the nil pointer stops the program. *)
Theorem NewWallet_failed_generator_panics {prim : Primitives}
    (rand : RandSource) (e : error) :
  GenerateKey rand = (None, Some e) ->
  NewWallet rand = Panic NilDereference.
Proof. intros E. unfold NewWallet. rewrite E. reflexivity. Qed.

Lemma NewWallet_failed_generator_panics_witness :
  @NewWallet Double.primitives false = Panic NilDereference.
Proof.
  apply (@NewWallet_failed_generator_panics Double.primitives false
           (foreignError 2)).
  reflexivity.
Defined.

Lemma NewWallet_ok {prim : Primitives}
    (rand : RandSource) (k : ecdsa.PrivateKey) (err : option error) :
  GenerateKey rand = (Some k, err) ->
  NewWallet rand =
  Return (Wallet.mk [] (PubkeyToAddress (ecdsa.Public k)) (Some k)
            false false).
Proof. intros E. unfold NewWallet. rewrite E. reflexivity. Qed.

(** ** The persistence codec *)

(** C7. For a wallet with a key, [GetBSON] gives the record whose id is
    the wallet's, whose address is the hexadecimal text of the wallet's
    address (its digits decode to the address), whose private key is the
    hexadecimal text of the bytes of the scalar (they decode to them),
    whose admin flag is the wallet's, and whose operator flag is false
    whatever the wallet's operator flag is. *)
Theorem GetBSON_projects_wallet {prim : Primitives}
    (w : Wallet.t) (key : ecdsa.PrivateKey) :
  Wallet.PrivateKey w = Some key ->
  exists r,
    GetBSON w = Return (r, None) /\
    WalletRecord.ID r = Wallet.ID w /\
    WalletRecord.Address r = common.Hex (Wallet.Address w) /\
    common.FromHex (WalletRecord.Address r) = Wallet.Address w /\
    WalletRecord.PrivateKey r = hex.EncodeToString (big.Bytes (ecdsa.D key)) /\
    hex.DecodeString (WalletRecord.PrivateKey r)
      = (big.Bytes (ecdsa.D key), None) /\
    WalletRecord.Admin r = Wallet.Admin w /\
    WalletRecord.Operator r = false /\
    forall b, GetBSON (Wallet.setOperator b w) = Return (r, None).
Proof.
  intros Hkey. unfold GetBSON. rewrite Hkey. eexists. split; [reflexivity|].
  cbn [WalletRecord.ID WalletRecord.Address WalletRecord.PrivateKey
       WalletRecord.Admin WalletRecord.Operator].
  repeat split.
  - apply FromHex_Hex.
  - apply DecodeString_EncodeToString.
  - intros b. cbn. rewrite Hkey. reflexivity.
Qed.

Lemma GetBSON_projects_wallet_witness :
  exists r,
    @GetBSON Double.primitives (Double.wallet 7) = Return (r, None) /\
    WalletRecord.ID r = str "id-1" /\
    WalletRecord.Address r =
      str "0x0000000000000000000000000000000000000007" /\
    common.FromHex (WalletRecord.Address r) = repeat x00 19 ++ [x07] /\
    WalletRecord.PrivateKey r = str "07" /\
    hex.DecodeString (WalletRecord.PrivateKey r) = ([x07], None) /\
    WalletRecord.Admin r = true /\
    WalletRecord.Operator r = false /\
    forall b, @GetBSON Double.primitives
                (Wallet.setOperator b (Double.wallet 7)) = Return (r, None).
Proof.
  apply (@GetBSON_projects_wallet Double.primitives (Double.wallet 7)
           (ecdsa.mkPrivateKey (ecdsa.mkPublicKey 7 1) 7)).
  reflexivity.
Defined.

(** C10. [GetBSON] never returns an error: whatever it returns comes with
    a nil error, and for a wallet whose private key is present it does
    return. *)
Theorem GetBSON_never_fails {prim : Primitives}
    (w : Wallet.t) (key : ecdsa.PrivateKey) :
  Wallet.PrivateKey w = Some key ->
  (exists r, GetBSON w = Return (r, None)) /\
  (forall w' r err, GetBSON w' = Return (r, err) -> err = None).
Proof.
  intros Hkey. split.
  - unfold GetBSON. rewrite Hkey. eauto.
  - intros w' r err. unfold GetBSON.
    destruct (Wallet.PrivateKey w'); [|discriminate].
    intros [= _ <-]. reflexivity.
Qed.

Lemma GetBSON_never_fails_witness :
  (exists r, @GetBSON Double.primitives (Double.wallet 7) = Return (r, None)) /\
  (forall w' r err,
     @GetBSON Double.primitives w' = Return (r, err) -> err = None).
Proof.
  apply (@GetBSON_never_fails Double.primitives (Double.wallet 7)
           (ecdsa.mkPrivateKey (ecdsa.mkPublicKey 7 1) 7)).
  reflexivity.
Defined.

(** Without a key, [GetBSON] stops the program. *)
Lemma GetBSON_nil_key {prim : Primitives} (w : Wallet.t) :
  Wallet.PrivateKey w = None -> GetBSON w = Panic NilDereference.
Proof. intros Hkey. unfold GetBSON. rewrite Hkey. reflexivity. Qed.

Section Decoding.

Context {prim : Primitives} {store : Storage}.

Lemma SetBSON_unmarshal_error
    (w : Wallet.t) (raw : Raw) (decoded : WalletRecord.t) (e : error) :
  Unmarshal raw = (decoded, Some e) ->
  SetBSON w raw = ((w, Some e), [e]).
Proof. intros E. unfold SetBSON. rewrite E. reflexivity. Qed.

Lemma SetBSON_key_error
    (w : Wallet.t) (raw : Raw) (decoded : WalletRecord.t) (e : error) :
  Unmarshal raw = (decoded, None) ->
  crypto.HexToECDSA (WalletRecord.PrivateKey decoded) = (None, Some e) ->
  SetBSON w raw =
  ((Wallet.mk (WalletRecord.ID decoded)
      (common.HexToAddress (WalletRecord.Address decoded))
      None (Wallet.Admin w) (Wallet.Operator w), Some e), [e]).
Proof. intros E1 E2. unfold SetBSON. rewrite E1, E2. reflexivity. Qed.

Lemma SetBSON_ok
    (w : Wallet.t) (raw : Raw) (decoded : WalletRecord.t)
    (k : ecdsa.PrivateKey) :
  Unmarshal raw = (decoded, None) ->
  crypto.HexToECDSA (WalletRecord.PrivateKey decoded) = (Some k, None) ->
  SetBSON w raw =
  ((Wallet.mk (WalletRecord.ID decoded)
      (common.HexToAddress (WalletRecord.Address decoded))
      (Some k) (WalletRecord.Admin decoded) (WalletRecord.Operator decoded),
    None), []).
Proof. intros E1 E2. unfold SetBSON. rewrite E1, E2. reflexivity. Qed.

End Decoding.

(** C8. [SetBSON] is not atomic on error: when the record is decoded and
    its private key is then rejected, the error is returned, the wallet's
    id and address have been overwritten from the record, and its admin
    and operator flags are those it had. *)
Theorem SetBSON_partial_update_on_key_error
    {prim : Primitives} {store : Storage}
    (w : Wallet.t) (raw : Raw) (decoded : WalletRecord.t) (e : error) :
  Unmarshal raw = (decoded, None) ->
  snd (crypto.HexToECDSA (WalletRecord.PrivateKey decoded)) = Some e ->
  exists w',
    fst (SetBSON w raw) = (w', Some e) /\
    Wallet.ID w' = WalletRecord.ID decoded /\
    Wallet.Address w' = common.HexToAddress (WalletRecord.Address decoded) /\
    Wallet.Admin w' = Wallet.Admin w /\
    Wallet.Operator w' = Wallet.Operator w.
Proof.
  intros E1 He.
  destruct (HexToECDSA_cases (WalletRecord.PrivateKey decoded))
    as [[e' E2]|[k E2]]; rewrite E2 in He; [|discriminate].
  cbn in He. injection He as ->.
  rewrite (SetBSON_key_error w raw E1 E2). eexists. repeat split.
Qed.

Lemma SetBSON_partial_update_on_key_error_witness :
  exists w',
    fst (@SetBSON Double.primitives Double.storage (Double.wallet 7)
           (Some (WalletRecord.mk (str "id-2")
                    (str "0x00000000000000000000000000000000000000ff")
                    (str "not-hex") false false)))
      = (w', Some (errorString "invalid hex string")) /\
    Wallet.ID w' = str "id-2" /\
    Wallet.Address w' = repeat x00 19 ++ [xff] /\
    Wallet.Admin w' = true /\
    Wallet.Operator w' = true.
Proof.
  apply (@SetBSON_partial_update_on_key_error Double.primitives
           Double.storage (Double.wallet 7)
           (Some (WalletRecord.mk (str "id-2")
                    (str "0x00000000000000000000000000000000000000ff")
                    (str "not-hex") false false))
           (WalletRecord.mk (str "id-2")
              (str "0x00000000000000000000000000000000000000ff")
              (str "not-hex") false false));
    reflexivity.
Defined.

(** C9. [SetBSON] never fails because of the address.  It returns an
    error exactly when the decoder does, or when the decoder does not and
    the private key is rejected; on two documents with the same decoder
    error and the same private key text it returns the same error,
    whatever their addresses; and once the document is decoded, the
    wallet's address is the 20 bytes [HexToAddress] makes of the text. *)
Theorem SetBSON_address_never_fails {prim : Primitives} {store : Storage}
    (w : Wallet.t) (raw : Raw) :
  let decoded := fst (Unmarshal raw) in
  (forall e,
     snd (fst (SetBSON w raw)) = Some e <->
     snd (Unmarshal raw) = Some e \/
     (snd (Unmarshal raw) = None /\
      snd (crypto.HexToECDSA (WalletRecord.PrivateKey decoded)) = Some e)) /\
  (forall raw',
     snd (Unmarshal raw') = snd (Unmarshal raw) ->
     WalletRecord.PrivateKey (fst (Unmarshal raw'))
       = WalletRecord.PrivateKey decoded ->
     snd (fst (SetBSON w raw')) = snd (fst (SetBSON w raw))) /\
  (snd (Unmarshal raw) = None ->
     Wallet.Address (fst (fst (SetBSON w raw)))
       = common.HexToAddress (WalletRecord.Address decoded) /\
     length (Wallet.Address (fst (fst (SetBSON w raw)))) = 20%nat).
Proof.
  assert (Herr : forall raw0,
            snd (fst (SetBSON w raw0)) =
            match snd (Unmarshal raw0) with
            | Some e => Some e
            | None => snd (crypto.HexToECDSA
                             (WalletRecord.PrivateKey (fst (Unmarshal raw0))))
            end).
  { intros raw0. unfold SetBSON.
    destruct (Unmarshal raw0) as [d [e|]]; [reflexivity|]. cbn [fst snd].
    destruct (crypto.HexToECDSA (WalletRecord.PrivateKey d)) as [k [e|]];
      reflexivity. }
  cbv zeta. repeat split.
  - rewrite Herr. destruct (snd (Unmarshal raw)); [left|right]; auto.
  - rewrite Herr. intros [H|[H1 H2]]; rewrite ?H, ?H1; auto.
  - intros raw' H1 H2. rewrite !Herr, H1, H2. reflexivity.
  - unfold SetBSON. destruct (Unmarshal raw) as [d [e|]]; [discriminate|].
    cbn [fst snd].
    destruct (crypto.HexToECDSA (WalletRecord.PrivateKey d)) as [k [e|]];
      reflexivity.
  - unfold SetBSON. destruct (Unmarshal raw) as [d [e|]]; [discriminate|].
    destruct (crypto.HexToECDSA (WalletRecord.PrivateKey d)) as [k [e|]];
      apply HexToAddress_length.
Qed.

Lemma SetBSON_address_never_fails_witness :
  let raw := Some (WalletRecord.mk (str "id-3") (str "no address at all")
    (str "0000000000000000000000000000000000000000000000000000000000000007")
    true false) in
  snd (fst (@SetBSON Double.primitives Double.storage (Double.wallet 9) raw))
    = None /\
  Wallet.Address
    (fst (fst (@SetBSON Double.primitives Double.storage (Double.wallet 9)
                 raw))) = repeat x00 20 /\
  length
    (Wallet.Address
       (fst (fst (@SetBSON Double.primitives Double.storage (Double.wallet 9)
                    raw)))) = 20%nat.
Proof.
  intros raw.
  pose proof (@SetBSON_address_never_fails Double.primitives Double.storage
                (Double.wallet 9) raw) as [_ [Hsame Haddr]].
  split.
  - rewrite <- (Hsame (Some (WalletRecord.mk [] []
      (str "0000000000000000000000000000000000000000000000000000000000000007")
      false false))); reflexivity.
  - apply (Haddr eq_refl).
Defined.

(** The round trip through the record, for a scalar of full width: the id,
    the address, the key and the admin flag come back; the operator flag
    comes back false. *)
Lemma SetBSON_GetBSON_full_scalar {prim : Primitives} {store : Storage}
    (w w0 : Wallet.t) (key : ecdsa.PrivateKey) (r : WalletRecord.t)
    (raw : Raw) :
  Wallet.PrivateKey w = Some key ->
  2 ^ 248 <= ecdsa.D key < crypto.secp256k1N ->
  ScalarBaseMult (big.Bytes (ecdsa.D key))
    = Some (ecdsa.X (ecdsa.Public key), ecdsa.Y (ecdsa.Public key)) ->
  length (Wallet.Address w) = 20%nat ->
  GetBSON w = Return (r, None) ->
  Unmarshal raw = (r, None) ->
  SetBSON w0 raw =
  ((Wallet.mk (Wallet.ID w) (Wallet.Address w) (Some key) (Wallet.Admin w)
      false, None), []).
Proof.
  intros Hkey HD Hpub Haddr Hget Hraw.
  unfold GetBSON in Hget. rewrite Hkey in Hget. injection Hget as <-.
  rewrite (SetBSON_ok w0 raw (k := key) Hraw).
  - cbn [WalletRecord.ID WalletRecord.Address WalletRecord.Admin
         WalletRecord.Operator].
    rewrite HexToAddress_Hex by exact Haddr. reflexivity.
  - cbn [WalletRecord.PrivateKey].
    rewrite (HexToECDSA_full_scalar HD Hpub).
    destruct key as [[x y] d]. reflexivity.
Qed.

(** C2, as the code has it.  [GetBSON] writes the scalar without leading
    zero bytes and [SetBSON] wants 32 bytes: for a wallet whose valid
    scalar is below [2^248], decoding its own record returns an error and
    leaves the wallet without a key. *)
Theorem SetBSON_GetBSON_short_scalar_fails
    {prim : Primitives} {store : Storage}
    (w w0 : Wallet.t) (key : ecdsa.PrivateKey) (r : WalletRecord.t)
    (raw : Raw) :
  Wallet.PrivateKey w = Some key ->
  0 < ecdsa.D key < 2 ^ 248 ->
  GetBSON w = Return (r, None) ->
  Unmarshal raw = (r, None) ->
  0 < ecdsa.D key < crypto.secp256k1N /\
  exists w',
    fst (SetBSON w0 raw) =
      (w', Some (errorString "invalid length, need 256 bits")) /\
    Wallet.PrivateKey w' = None.
Proof.
  intros Hkey HD Hget Hraw. split.
  - assert (2 ^ 248 < crypto.secp256k1N) by reflexivity. lia.
  - unfold GetBSON in Hget. rewrite Hkey in Hget. injection Hget as <-.
    rewrite (SetBSON_key_error w0 raw
               (e := errorString "invalid length, need 256 bits") Hraw).
    + eexists. split; reflexivity.
    + cbn [WalletRecord.PrivateKey]. apply HexToECDSA_short_scalar. lia.
Qed.

Lemma SetBSON_GetBSON_short_scalar_fails_witness :
  0 < 1 < crypto.secp256k1N /\
  exists w',
    fst (@SetBSON Double.primitives Double.storage
           (Wallet.mk [] [] None false false)
           (Some (WalletRecord.mk (str "id-1")
                    (str "0x0000000000000000000000000000000000000001")
                    (str "01") true false))) =
      (w', Some (errorString "invalid length, need 256 bits")) /\
    Wallet.PrivateKey w' = None.
Proof.
  apply (@SetBSON_GetBSON_short_scalar_fails Double.primitives Double.storage
           (Double.wallet 1) (Wallet.mk [] [] None false false)
           (ecdsa.mkPrivateKey (ecdsa.mkPublicKey 1 1) 1)
           (WalletRecord.mk (str "id-1")
              (str "0x0000000000000000000000000000000000000001")
              (str "01") true false));
    try reflexivity.
  split; reflexivity.
Defined.

(** ** Smaller facts *)

(** The preamble has 28 bytes, so that 60 bytes are hashed for a 32-byte
    digest. *)
Lemma preamble_length : length preamble = 28%nat.
Proof. reflexivity. Qed.

Lemma signed_buffer_length (d : common.Hash) :
  length d = 32%nat -> length (preamble ++ d) = 60%nat.
Proof. intros Hd. rewrite length_app, Hd. reflexivity. Qed.

Lemma Validate_nil (w : Wallet.t) : Validate w = None.
Proof. reflexivity. Qed.

(** [GetPrivateKey] writes the same text as [GetBSON]. *)
Lemma GetPrivateKey_GetBSON {prim : Primitives}
    (w : Wallet.t) (r : WalletRecord.t) (err : option error) :
  GetBSON w = Return (r, err) ->
  GetPrivateKey w = Return (WalletRecord.PrivateKey r).
Proof.
  unfold GetBSON, GetPrivateKey.
  destruct (Wallet.PrivateKey w); [|discriminate].
  intros [= <- _]. reflexivity.
Qed.

(** A wallet made from a valid key of full width writes that key back in
    lower case. *)
Lemma NewWalletFromPrivateKey_GetPrivateKey {prim : Primitives}
    (x px py : Z) :
  2 ^ 248 <= x < crypto.secp256k1N ->
  ScalarBaseMult (big.Bytes x) = Some (px, py) ->
  exists w,
    NewWalletFromPrivateKey (hex.EncodeToString (big.Bytes x))
      = (Return w, []) /\
    GetPrivateKey w = Return (hex.EncodeToString (big.Bytes x)) /\
    Wallet.Address w = PubkeyToAddress (ecdsa.mkPublicKey px py).
Proof.
  intros Hx Hmul.
  rewrite (NewWalletFromPrivateKey_ok _ (HexToECDSA_full_scalar Hx Hmul)).
  eexists. repeat split.
Qed.

(** * Further properties of the wallet code *)

(** ** Keys that are accepted *)

(** An accepted text has 64 digits for a scalar in range, and the key holds
    that scalar with the point of the curve for it. *)
Lemma HexToECDSA_sound {prim : Primitives}
    (hexkey : bytes) (k : ecdsa.PrivateKey) (err : option error) :
  crypto.HexToECDSA hexkey = (Some k, err) ->
  err = None /\
  exists b,
    hex.DecodeString hexkey = (b, None) /\
    length b = 32%nat /\ length hexkey = 64%nat /\
    ecdsa.D k = big.SetBytes b /\
    0 < ecdsa.D k < crypto.secp256k1N /\
    ScalarBaseMult b
      = Some (ecdsa.X (ecdsa.Public k), ecdsa.Y (ecdsa.Public k)).
Proof.
  unfold crypto.HexToECDSA.
  destruct (hex.DecodeString hexkey) as [b [e|]] eqn:Hdec; [discriminate|].
  unfold crypto.ToECDSA.
  destruct (Nat.eqb (8 * length b) 256) eqn:E8; cbn [negb]; [|discriminate].
  destruct (crypto.secp256k1N <=? big.SetBytes b) eqn:E1; [discriminate|].
  destruct (big.SetBytes b <=? 0) eqn:E2; [discriminate|].
  destruct (ScalarBaseMult b) as [[x y]|] eqn:Hmul; [|discriminate].
  intros [= <- <-]. split; [reflexivity|].
  apply Nat.eqb_eq in E8. apply Z.leb_gt in E1. apply Z.leb_gt in E2.
  exists b. cbn [ecdsa.D ecdsa.Public ecdsa.X ecdsa.Y].
  pose proof (DecodeString_ok_length hexkey Hdec).
  repeat split; try reflexivity; try assumption; lia.
Qed.

(** X7. Whenever [NewWalletFromPrivateKey] returns a wallet, nothing was
    printed, the text had 64 hexadecimal digits, the wallet's scalar is
    their value and lies strictly between 0 and the group order, its
    address is derived from the public key of that scalar, and its id and
    flags are the zero values. *)
Theorem NewWalletFromPrivateKey_returns_valid_wallet {prim : Primitives}
    (key : bytes) (w : Wallet.t) (log : Log) :
  NewWalletFromPrivateKey key = (Return w, log) ->
  log = [] /\ length key = 64%nat /\
  exists k,
    Wallet.PrivateKey w = Some k /\
    ecdsa.D k = big.SetBytes (fst (hex.DecodeString key)) /\
    0 < ecdsa.D k < crypto.secp256k1N /\
    ScalarBaseMult (fst (hex.DecodeString key))
      = Some (ecdsa.X (ecdsa.Public k), ecdsa.Y (ecdsa.Public k)) /\
    Wallet.Address w = PubkeyToAddress (ecdsa.Public k) /\
    Wallet.ID w = [] /\ Wallet.Admin w = false /\ Wallet.Operator w = false.
Proof.
  unfold NewWalletFromPrivateKey.
  destruct (crypto.HexToECDSA key) as [[k|] err] eqn:E; [|discriminate].
  destruct (HexToECDSA_sound _ E) as [-> [b [Hdec [Hb [Hlen [HD [Hr Hm]]]]]]].
  intros [= <- <-]. rewrite Hdec. cbn [fst].
  repeat split; try assumption; try lia.
  exists k. repeat split; try assumption; lia.
Qed.

Lemma NewWalletFromPrivateKey_returns_valid_wallet_witness :
  let key :=
    str "000000000000000000000000000000000000000000000000000000000000000A" in
  @nil error = [] /\ length key = 64%nat /\
  exists k,
    Some (ecdsa.mkPrivateKey (ecdsa.mkPublicKey 10 1) 10) = Some k /\
    ecdsa.D k = big.SetBytes (fst (hex.DecodeString key)) /\
    0 < ecdsa.D k < crypto.secp256k1N /\
    @ScalarBaseMult Double.primitives (fst (hex.DecodeString key))
      = Some (ecdsa.X (ecdsa.Public k), ecdsa.Y (ecdsa.Public k)) /\
    repeat x00 19 ++ [x0a] = @PubkeyToAddress Double.primitives (ecdsa.Public k) /\
    @nil byte = [] /\ false = false /\ false = false.
Proof.
  intros key.
  apply (@NewWalletFromPrivateKey_returns_valid_wallet Double.primitives key
           (Wallet.mk [] (repeat x00 19 ++ [x0a])
              (Some (ecdsa.mkPrivateKey (ecdsa.mkPublicKey 10 1) 10))
              false false) []).
  reflexivity.
Defined.

(** X8. [NewWallet] returns a wallet exactly when the generator gave a
    key, whether or not it gave an error with it: the wallet holds that
    key, the address derived from its public key, an empty id and false
    flags. *)
Theorem NewWallet_returns_iff {prim : Primitives}
    (rand : RandSource) (w : Wallet.t) :
  NewWallet rand = Return w <->
  exists k,
    fst (GenerateKey rand) = Some k /\
    w = Wallet.mk [] (PubkeyToAddress (ecdsa.Public k)) (Some k) false false.
Proof.
  unfold NewWallet. destruct (GenerateKey rand) as [[k|] err]; cbn [fst].
  - split.
    + intros [= <-]. exists k. split; reflexivity.
    + intros [k' [[= <-] ->]]. reflexivity.
  - split; [discriminate | intros [k' [H _]]; discriminate].
Qed.

Lemma NewWallet_returns_iff_witness :
  exists k,
    fst (@GenerateKey Double.primitives true) = Some k /\
    Wallet.mk [] (repeat x00 19 ++ [x07]) (Some Double.key7) false false =
    Wallet.mk [] (@PubkeyToAddress Double.primitives (ecdsa.Public k))
      (Some k) false false.
Proof.
  apply (proj1 (@NewWallet_returns_iff Double.primitives true
                  (Wallet.mk [] (repeat x00 19 ++ [x07]) (Some Double.key7)
                     false false))).
  reflexivity.
Defined.

(** ** The texts of the address and of the key *)

(** X3. For a wallet with its 20-byte address, [GetAddress] returns 42
    characters, [0x] and then 40 hexadecimal digits that decode to the
    address without error; [HexToAddress], which [SetBSON] uses, reads the
    text back as the address. *)
Theorem GetAddress_reads_back {prim : Primitives} (w : Wallet.t) :
  length (Wallet.Address w) = 20%nat ->
  length (GetAddress w) = 42%nat /\
  firstn 2 (GetAddress w) = str "0x" /\
  hex.DecodeString (skipn 2 (GetAddress w)) = (Wallet.Address w, None) /\
  common.HexToAddress (GetAddress w) = Wallet.Address w.
Proof.
  intros Hlen. unfold GetAddress. repeat split.
  - rewrite Hex_length, Hlen. reflexivity.
  - unfold common.Hex. change (str "0x") with ["0"%byte; "x"%byte].
    apply DecodeString_checksumCase.
  - apply HexToAddress_Hex. exact Hlen.
Qed.

Lemma GetAddress_reads_back_witness :
  length (@GetAddress Double.primitives (Double.wallet 171)) = 42%nat /\
  firstn 2 (@GetAddress Double.primitives (Double.wallet 171)) = str "0x" /\
  hex.DecodeString (skipn 2 (@GetAddress Double.primitives (Double.wallet 171)))
    = (repeat x00 19 ++ [xab], None) /\
  common.HexToAddress (@GetAddress Double.primitives (Double.wallet 171))
    = repeat x00 19 ++ [xab].
Proof.
  apply (@GetAddress_reads_back Double.primitives (Double.wallet 171)).
  reflexivity.
Defined.

(** X4. For a wallet with a key, [GetPrivateKey] returns hexadecimal
    digits that decode without error to the scalar; no leading zero byte
    is written, so a scalar below [2^248] gives at most 62 digits and only
    a scalar from [2^248] up gives the 64 digits of a full key. *)
Theorem GetPrivateKey_text
    (w : Wallet.t) (k : ecdsa.PrivateKey) :
  Wallet.PrivateKey w = Some k ->
  0 <= ecdsa.D k < 2 ^ 256 ->
  exists text,
    GetPrivateKey w = Return text /\
    big.SetBytes (fst (hex.DecodeString text)) = ecdsa.D k /\
    snd (hex.DecodeString text) = None /\
    (ecdsa.D k < 2 ^ 248 -> (length text <= 62)%nat) /\
    (2 ^ 248 <= ecdsa.D k -> length text = 64%nat).
Proof.
  intros Hkey HD. unfold GetPrivateKey. rewrite Hkey.
  eexists. split; [reflexivity|].
  rewrite DecodeString_EncodeToString, EncodeToString_length. cbn [fst snd].
  repeat split.
  - apply SetBytes_Bytes. lia.
  - intros Hlt. pose proof (@Bytes_length_short (ecdsa.D k)). lia.
  - intros Hge. rewrite Bytes_length_full by lia. reflexivity.
Qed.

Lemma GetPrivateKey_text_witness :
  exists text,
    GetPrivateKey (Double.wallet 7) = Return text /\
    big.SetBytes (fst (hex.DecodeString text)) = 7 /\
    snd (hex.DecodeString text) = None /\
    (7 < 2 ^ 248 -> (length text <= 62)%nat) /\
    (2 ^ 248 <= 7 -> length text = 64%nat).
Proof.
  apply (@GetPrivateKey_text (Double.wallet 7)
           (ecdsa.mkPrivateKey (ecdsa.mkPublicKey 7 1) 7)).
  - reflexivity.
  - split; [discriminate | reflexivity].
Defined.

(** X5. The text [GetPrivateKey] returns for a scalar below [2^248] is
    not a key for [NewWalletFromPrivateKey]: it is rejected for its
    length, the error is printed and the program stops. *)
Theorem NewWalletFromPrivateKey_rejects_short_GetPrivateKey
    {prim : Primitives} (w : Wallet.t) (k : ecdsa.PrivateKey) :
  Wallet.PrivateKey w = Some k ->
  0 <= ecdsa.D k < 2 ^ 248 ->
  exists text,
    GetPrivateKey w = Return text /\
    NewWalletFromPrivateKey text =
    (Panic NilDereference, [errorString "invalid length, need 256 bits"]).
Proof.
  intros Hkey HD. unfold GetPrivateKey. rewrite Hkey.
  eexists. split; [reflexivity|].
  unfold NewWalletFromPrivateKey.
  rewrite (HexToECDSA_short_scalar HD). reflexivity.
Qed.

Lemma NewWalletFromPrivateKey_rejects_short_GetPrivateKey_witness :
  exists text,
    GetPrivateKey (Double.wallet 7) = Return text /\
    @NewWalletFromPrivateKey Double.primitives text =
    (Panic NilDereference, [errorString "invalid length, need 256 bits"]).
Proof.
  apply (@NewWalletFromPrivateKey_rejects_short_GetPrivateKey
           Double.primitives (Double.wallet 7)
           (ecdsa.mkPrivateKey (ecdsa.mkPublicKey 7 1) 7)).
  - reflexivity.
  - split; [discriminate | reflexivity].
Defined.

(** X6. For a wallet whose valid scalar is at least [2^248] and whose
    public key is the point of that scalar, the text [GetPrivateKey]
    returns makes, through [NewWalletFromPrivateKey], a wallet with the
    same key and the address derived from it, and nothing is printed. *)
Theorem NewWalletFromPrivateKey_accepts_full_GetPrivateKey
    {prim : Primitives} (w : Wallet.t) (k : ecdsa.PrivateKey) :
  Wallet.PrivateKey w = Some k ->
  2 ^ 248 <= ecdsa.D k < crypto.secp256k1N ->
  ScalarBaseMult (big.Bytes (ecdsa.D k))
    = Some (ecdsa.X (ecdsa.Public k), ecdsa.Y (ecdsa.Public k)) ->
  exists text,
    GetPrivateKey w = Return text /\
    NewWalletFromPrivateKey text =
    (Return (Wallet.mk [] (PubkeyToAddress (ecdsa.Public k)) (Some k)
               false false), []).
Proof.
  intros Hkey HD Hmul. unfold GetPrivateKey. rewrite Hkey.
  eexists. split; [reflexivity|].
  rewrite (NewWalletFromPrivateKey_ok _ (HexToECDSA_full_scalar HD Hmul)).
  destruct k as [[x y] d]. reflexivity.
Qed.

Lemma NewWalletFromPrivateKey_accepts_full_GetPrivateKey_witness :
  let d := 2 ^ 255 + 5 in
  exists text,
    GetPrivateKey (Double.wallet d) = Return text /\
    @NewWalletFromPrivateKey Double.primitives text =
    (Return (Wallet.mk []
               (@PubkeyToAddress Double.primitives (ecdsa.mkPublicKey d 1))
               (Some (ecdsa.mkPrivateKey (ecdsa.mkPublicKey d 1) d))
               false false), []).
Proof.
  intros d.
  apply (@NewWalletFromPrivateKey_accepts_full_GetPrivateKey
           Double.primitives (Double.wallet d)
           (ecdsa.mkPrivateKey (ecdsa.mkPublicKey d 1) d)).
  - reflexivity.
  - split; [discriminate | reflexivity].
  - reflexivity.
Defined.

(** ** More on the codec *)

(** X1. For a wallet with its 20-byte address whose valid scalar is at
    least [2^248] and whose public key is the point of that scalar,
    decoding the record [GetBSON] made gives, on any wallet, no error and
    nothing printed: the id, the address, the key and the admin flag are
    those of the encoded wallet, and the operator flag is false. *)
Theorem SetBSON_GetBSON_roundtrip_full_width
    {prim : Primitives} {store : Storage}
    (w w0 : Wallet.t) (key : ecdsa.PrivateKey) (r : WalletRecord.t)
    (raw : Raw) :
  Wallet.PrivateKey w = Some key ->
  2 ^ 248 <= ecdsa.D key < crypto.secp256k1N ->
  ScalarBaseMult (big.Bytes (ecdsa.D key))
    = Some (ecdsa.X (ecdsa.Public key), ecdsa.Y (ecdsa.Public key)) ->
  length (Wallet.Address w) = 20%nat ->
  GetBSON w = Return (r, None) ->
  Unmarshal raw = (r, None) ->
  SetBSON w0 raw =
  ((Wallet.mk (Wallet.ID w) (Wallet.Address w) (Some key) (Wallet.Admin w)
      false, None), []).
Proof.
  intros Hkey HD Hpub Haddr Hget Hraw.
  eapply SetBSON_GetBSON_full_scalar; eassumption.
Qed.

Lemma SetBSON_GetBSON_roundtrip_full_width_witness :
  let d := 2 ^ 255 + 5 in
  @SetBSON Double.primitives Double.storage (Double.wallet 7)
    (Some (WalletRecord.mk (str "id-1")
             (@common.Hex Double.primitives (Wallet.Address (Double.wallet d)))
             (hex.EncodeToString (big.Bytes d)) true false)) =
  ((Wallet.mk (str "id-1") (Wallet.Address (Double.wallet d))
      (Some (ecdsa.mkPrivateKey (ecdsa.mkPublicKey d 1) d)) true false,
    None), []).
Proof.
  intros d.
  apply (@SetBSON_GetBSON_roundtrip_full_width Double.primitives
           Double.storage (Double.wallet d) (Double.wallet 7)
           (ecdsa.mkPrivateKey (ecdsa.mkPublicKey d 1) d)
           (WalletRecord.mk (str "id-1")
              (@common.Hex Double.primitives
                 (Wallet.Address (Double.wallet d)))
              (hex.EncodeToString (big.Bytes d)) true false)).
  - reflexivity.
  - split; [discriminate | reflexivity].
  - reflexivity.
  - reflexivity.
  - reflexivity.
  - reflexivity.
Defined.

(** X2. Decoding and then encoding: when [SetBSON] accepts a document,
    [GetBSON] on the wallet it filled gives a record with the id and the
    admin flag of the document, an address text that reads as the same
    20 bytes, a private key text that decodes to the same scalar, and a
    false operator flag whatever the document's was. *)
Theorem GetBSON_after_SetBSON {prim : Primitives} {store : Storage}
    (w : Wallet.t) (raw : Raw) (decoded : WalletRecord.t)
    (k : ecdsa.PrivateKey) :
  Unmarshal raw = (decoded, None) ->
  crypto.HexToECDSA (WalletRecord.PrivateKey decoded) = (Some k, None) ->
  exists r,
    GetBSON (fst (fst (SetBSON w raw))) = Return (r, None) /\
    WalletRecord.ID r = WalletRecord.ID decoded /\
    WalletRecord.Admin r = WalletRecord.Admin decoded /\
    WalletRecord.Operator r = false /\
    common.HexToAddress (WalletRecord.Address r)
      = common.HexToAddress (WalletRecord.Address decoded) /\
    snd (hex.DecodeString (WalletRecord.PrivateKey r)) = None /\
    big.SetBytes (fst (hex.DecodeString (WalletRecord.PrivateKey r)))
      = big.SetBytes (fst (hex.DecodeString (WalletRecord.PrivateKey decoded))).
Proof.
  intros Hraw Hk. rewrite (SetBSON_ok w raw Hraw Hk). cbn [fst].
  unfold GetBSON. cbn [Wallet.PrivateKey Wallet.ID Wallet.Address Wallet.Admin].
  eexists. split; [reflexivity|].
  cbn [WalletRecord.ID WalletRecord.Address WalletRecord.PrivateKey
       WalletRecord.Admin WalletRecord.Operator].
  destruct (HexToECDSA_sound _ Hk) as [_ [b [Hdec [_ [_ [HD [Hr _]]]]]]].
  rewrite DecodeString_EncodeToString, Hdec. cbn [fst snd].
  repeat split.
  - apply HexToAddress_Hex. apply HexToAddress_length.
  - rewrite SetBytes_Bytes by lia. exact HD.
Qed.

Lemma GetBSON_after_SetBSON_witness :
  let decoded :=
    WalletRecord.mk (str "id-4") (str "0XAB")
      (str "00000000000000000000000000000000000000000000000000000000000000FF")
      true true in
  exists r,
    @GetBSON Double.primitives
      (fst (fst (@SetBSON Double.primitives Double.storage (Double.wallet 7)
                   (Some decoded)))) = Return (r, None) /\
    WalletRecord.ID r = str "id-4" /\
    WalletRecord.Admin r = true /\
    WalletRecord.Operator r = false /\
    common.HexToAddress (WalletRecord.Address r)
      = common.HexToAddress (str "0XAB") /\
    snd (hex.DecodeString (WalletRecord.PrivateKey r)) = None /\
    big.SetBytes (fst (hex.DecodeString (WalletRecord.PrivateKey r)))
      = big.SetBytes (fst (hex.DecodeString (WalletRecord.PrivateKey decoded))).
Proof.
  intros decoded.
  apply (@GetBSON_after_SetBSON Double.primitives Double.storage
           (Double.wallet 7) (Some decoded) decoded
           (ecdsa.mkPrivateKey (ecdsa.mkPublicKey 255 1) 255));
    reflexivity.
Defined.

(** X9. [SetBSON] prints exactly the error it returns, once, and prints
    nothing when it returns none. *)
Theorem SetBSON_prints_returned_error {prim : Primitives} {store : Storage}
    (w : Wallet.t) (raw : Raw) :
  snd (SetBSON w raw) = logIf (snd (fst (SetBSON w raw))).
Proof.
  unfold SetBSON. destruct (Unmarshal raw) as [d [e|]]; [reflexivity|].
  destruct (crypto.HexToECDSA (WalletRecord.PrivateKey d)) as [k [e|]];
    reflexivity.
Qed.

(** X10. When the decoder fails, [SetBSON] returns its error and leaves
    every field of the wallet as it was. *)
Theorem SetBSON_decoder_error_keeps_wallet
    {prim : Primitives} {store : Storage}
    (w : Wallet.t) (raw : Raw) (e : error) :
  snd (Unmarshal raw) = Some e ->
  fst (SetBSON w raw) = (w, Some e).
Proof.
  intros He. unfold SetBSON. destruct (Unmarshal raw) as [d err].
  cbn [snd] in He. subst err. reflexivity.
Qed.

Lemma SetBSON_decoder_error_keeps_wallet_witness :
  fst (@SetBSON Double.primitives Double.storage (Double.wallet 7) None)
    = (Double.wallet 7, Some (foreignError 3)).
Proof.
  apply (@SetBSON_decoder_error_keeps_wallet Double.primitives Double.storage
           (Double.wallet 7) None).
  reflexivity.
Defined.



(** X12. A wallet on which [SetBSON] rejected the private key has lost
    the key it had: its key is nil, and [GetBSON] and [GetPrivateKey]
    on it stop the program. *)
Theorem SetBSON_key_error_drops_key {prim : Primitives} {store : Storage}
    (w : Wallet.t) (raw : Raw) (e : error) :
  snd (Unmarshal raw) = None ->
  snd (crypto.HexToECDSA (WalletRecord.PrivateKey (fst (Unmarshal raw))))
    = Some e ->
  let w' := fst (fst (SetBSON w raw)) in
  Wallet.PrivateKey w' = None /\
  GetBSON w' = Panic NilDereference /\
  GetPrivateKey w' = Panic NilDereference.
Proof.
  intros Hraw He.
  destruct (Unmarshal raw) as [d err] eqn:E. cbn [fst snd] in *. subst err.
  destruct (HexToECDSA_cases (WalletRecord.PrivateKey d))
    as [[e' E2]|[k E2]]; rewrite E2 in He; [|discriminate].
  rewrite (SetBSON_key_error w raw E E2). cbn [fst].
  repeat split.
Qed.

Lemma SetBSON_key_error_drops_key_witness :
  let w' :=
    fst (fst (@SetBSON Double.primitives Double.storage (Double.wallet 7)
                (Some (WalletRecord.mk [] [] (str "07") false false)))) in
  Wallet.PrivateKey w' = None /\
  @GetBSON Double.primitives w' = Panic NilDereference /\
  GetPrivateKey w' = Panic NilDereference.
Proof.
  apply (@SetBSON_key_error_drops_key Double.primitives Double.storage
           (Double.wallet 7)
           (Some (WalletRecord.mk [] [] (str "07") false false))
           (errorString "invalid length, need 256 bits"));
    reflexivity.
Defined.

(** ** More on signing *)

(** X13. A wallet without a key cannot sign: with the 32-byte digests of
    Keccak-256, [SignHash] stops the program at the nil key, and so do
    [SignOrder] and [SignTrade], before they write any field. *)
Theorem signing_without_key_panics {prim : Primitives} {dom : Signables}
    (w : Wallet.t) :
  (forall m, length (keccak m) = 32%nat) ->
  Wallet.PrivateKey w = None ->
  (forall d, SignHash w d = Panic NilDereference) /\
  (forall o, SignOrder w o = Panic NilDereference) /\
  (forall t, SignTrade w t = Panic NilDereference).
Proof.
  intros Hk Hkey.
  assert (Hs : forall d, SignHash w d = Panic NilDereference).
  { intros d. unfold SignHash, crypto.Sign, crypto.Keccak256. cbv zeta.
    rewrite Hk, Hkey. reflexivity. }
  repeat split.
  - exact Hs.
  - intros o. apply SignOrder_panic, Hs.
  - intros t. apply SignTrade_panic, Hs.
Qed.

Lemma signing_without_key_panics_witness :
  let w := Wallet.mk (str "id-6") (repeat x00 20) None true false in
  (forall d, @SignHash Double.primitives w d = Panic NilDereference) /\
  (forall o, @SignOrder Double.primitives Double.signables w o
             = Panic NilDereference) /\
  (forall t, @SignTrade Double.primitives Double.signables w t
             = Panic NilDereference).
Proof.
  intros w.
  apply (@signing_without_key_panics Double.primitives Double.signables w).
  - intros m. reflexivity.
  - reflexivity.
Defined.

(** X14. Every return of [SignHash] is of one of two kinds.  With an
    error, the signature is the zero value and the error is that of
    [crypto.Sign].  Without one, [crypto.Sign] gave at least 65 bytes,
    [R] and [S] are its first and second 32 bytes, [V] is its byte 64
    plus 27, and any byte after those is ignored. *)
Theorem SignHash_returns_classified {prim : Primitives}
    (w : Wallet.t) (d : common.Hash) (sig : Signature.t)
    (err : option error) :
  SignHash w d = Return (sig, err) ->
  exists sigBytes,
    crypto.Sign (keccak (preamble ++ d)) (Wallet.PrivateKey w)
      = Return (sigBytes, err) /\
    match err with
    | Some _ => sig = Signature.zero
    | None =>
        (65 <= length sigBytes)%nat /\
        sig = Signature.mk (firstn 32 sigBytes)
                (firstn 32 (skipn 32 sigBytes))
                (byte_add (nth 64 sigBytes x00) (byte_of_Z 27))
    end.
Proof.
  unfold SignHash. cbv zeta. rewrite Keccak256_preamble.
  destruct (crypto.Sign (keccak (preamble ++ d)) (Wallet.PrivateKey w))
    as [[sigBytes [e|]]|p]; cbn [obind]; [| |discriminate].
  - intros [= <- <-]. exists sigBytes. split; reflexivity.
  - unfold slice, index.
    change (Nat.leb 0 32) with true. change (Nat.leb 32 64) with true.
    cbn [andb].
    destruct (Nat.leb 32 (length sigBytes)) eqn:E32; [|discriminate].
    destruct (Nat.leb 64 (length sigBytes)) eqn:E64; [|discriminate].
    cbn [obind].
    destruct (nth_error sigBytes 64) as [v|] eqn:Ev; [|discriminate].
    cbn [obind]. intros H.
    assert (Hp := f_equal (fun r => match r with
                                    | Return x => x
                                    | Panic _ => (sig, err)
                                    end) H).
    cbv beta iota in Hp.
    assert (Hs := f_equal fst Hp). assert (He := f_equal snd Hp).
    cbn [fst snd] in Hs, He. subst sig err. clear H Hp.
    assert (Hlen : (64 < length sigBytes)%nat).
    { apply nth_error_Some. congruence. }
    exists sigBytes. split; [reflexivity|]. split; [lia|].
    rewrite (nth_error_nth' sigBytes x00 Hlen) in Ev.
    assert (Hv : v = nth 64 sigBytes x00) by congruence. rewrite Hv.
    change (firstn (32 - 0) (skipn 0 sigBytes)) with (firstn 32 sigBytes).
    change (64 - 32)%nat with 32%nat.
    unfold common.BytesToHash.
    rewrite !setBytes_exact; [reflexivity | |];
      rewrite ?length_firstn, ?length_skipn; unfold common.HashLength; lia.
Qed.

Lemma SignHash_returns_classified_witness :
  exists sigBytes,
    @crypto.Sign Double.primitives
      (@keccak Double.primitives (preamble ++ Double.digestAA))
      (Wallet.PrivateKey (Double.wallet 7)) = Return (sigBytes, None) /\
    (65 <= length sigBytes)%nat /\
    Signature.mk (repeat xa7 32) (repeat x00 31 ++ [x07]) (byte_of_Z 28) =
    Signature.mk (firstn 32 sigBytes) (firstn 32 (skipn 32 sigBytes))
      (byte_add (nth 64 sigBytes x00) (byte_of_Z 27)).
Proof.
  apply (@SignHash_returns_classified Double.primitives (Double.wallet 7)
           Double.digestAA
           (Signature.mk (repeat xa7 32) (repeat x00 31 ++ [x07])
              (byte_of_Z 28)) None).
  reflexivity.
Defined.

(** X15. Every return of [SignOrder] and of [SignTrade] is all or
    nothing.  Either there is no error, the hash is the computed one, the
    signature is the one [SignHash] gave for it and the content is
    untouched; or there is the error of [SignHash] and the order (the
    trade) is the one passed in. *)
Theorem SignOrder_SignTrade_returns_classified
    {prim : Primitives} {dom : Signables} (w : Wallet.t) :
  (forall o o' err,
     SignOrder w o = Return (o', err) ->
     exists sig,
       SignHash w (Order_ComputeHash o) = Return (sig, err) /\
       match err with
       | Some _ => o' = o
       | None => o' = Order.mk (Order.body o) (Order_ComputeHash o) (Some sig)
       end) /\
  (forall t t' err,
     SignTrade w t = Return (t', err) ->
     exists sig,
       SignHash w (Trade_ComputeHash t) = Return (sig, err) /\
       match err with
       | Some _ => t' = t
       | None => t' = Trade.mk (Trade.body t) (Trade_ComputeHash t) (Some sig)
       end).
Proof.
  split.
  - intros o o' err. unfold SignOrder. cbv zeta.
    destruct (SignHash w (Order_ComputeHash o)) as [[sig [e|]]|p];
      cbn [obind]; [| |discriminate]; intros [= <- <-]; exists sig;
      split; reflexivity.
  - intros t t' err. unfold SignTrade. cbv zeta.
    destruct (SignHash w (Trade_ComputeHash t)) as [[sig [e|]]|p];
      cbn [obind]; [| |discriminate]; intros [= <- <-]; exists sig;
      split; reflexivity.
Qed.

Lemma SignOrder_SignTrade_returns_classified_witness :
  let o := Order.mk (str "order") [x01; x02] None in
  exists sig,
    @SignHash Double.primitives (Double.wallet 1)
      (@Order_ComputeHash Double.signables o)
      = Return (sig, Some (foreignError 1)) /\
    o = o.
Proof.
  intros o.
  apply (proj1 (@SignOrder_SignTrade_returns_classified Double.primitives
                  Double.signables (Double.wallet 1))
           o o (Some (foreignError 1))).
  reflexivity.
Defined.

(** ** From a key text to storage and back *)






(** ** Address texts of any length, key texts of the wrong shape *)

Lemma has0xPrefix_EncodeToString (b : bytes) :
  common.has0xPrefix (hex.EncodeToString b) = false.
Proof.
  destruct b as [|v b]; [reflexivity|].
  cbn [hex.EncodeToString hex.EncodeByte app]. destruct v; reflexivity.
Qed.

Lemma FromHex_EncodeToString (b : bytes) :
  common.FromHex (hex.EncodeToString b) = b /\
  common.FromHex (str "0x" ++ hex.EncodeToString b) = b.
Proof.
  assert (Hodd : Nat.odd (length (hex.EncodeToString b)) = false).
  { rewrite EncodeToString_length, <- Nat.negb_even, Nat.even_mul.
    reflexivity. }
  unfold common.FromHex, common.Hex2Bytes. split.
  - rewrite has0xPrefix_EncodeToString, Hodd, DecodeString_EncodeToString.
    reflexivity.
  - change (str "0x") with ["0"%byte; "x"%byte].
    cbn [app common.has0xPrefix skipn].
    change (byte_eqb "0" "0" && (byte_eqb "x" "x" || byte_eqb "x" "X"))
      with true. cbv iota.
    rewrite Hodd, DecodeString_EncodeToString. reflexivity.
Qed.

Lemma setBytes_closed_form (n : nat) (b : bytes) :
  common.setBytes n b =
  repeat x00 (n - length b) ++ skipn (length b - n) b.
Proof.
  unfold common.setBytes. destruct (Nat.ltb n (length b)) eqn:E.
  - apply Nat.ltb_lt in E. rewrite length_skipn.
    replace (n - (length b - (length b - n)))%nat with 0%nat by lia.
    replace (n - length b)%nat with 0%nat by lia. reflexivity.
  - apply Nat.ltb_ge in E.
    replace (length b - n)%nat with 0%nat by lia. reflexivity.
Qed.

(** X17. [SetBSON] takes an address text of any number of bytes, with or
    without [0x]: once the document is decoded, whether or not the key is
    then accepted, fewer than 20 bytes are padded with zero bytes on the
    left and of more than 20 bytes only the last 20 are kept. *)
Theorem SetBSON_address_padded_or_cropped
    {prim : Primitives} {store : Storage}
    (w : Wallet.t) (raw : Raw) (decoded : WalletRecord.t) (b : bytes) :
  Unmarshal raw = (decoded, None) ->
  WalletRecord.Address decoded = hex.EncodeToString b \/
  WalletRecord.Address decoded = str "0x" ++ hex.EncodeToString b ->
  Wallet.Address (fst (fst (SetBSON w raw))) =
  repeat x00 (20 - length b) ++ skipn (length b - 20) b.
Proof.
  intros Hraw Haddr.
  assert (Hfrom : common.FromHex (WalletRecord.Address decoded) = b).
  { destruct (FromHex_EncodeToString b) as [H1 H2].
    destruct Haddr as [-> | ->]; assumption. }
  assert (Hset : Wallet.Address (fst (fst (SetBSON w raw))) =
                 common.HexToAddress (WalletRecord.Address decoded)).
  { unfold SetBSON. rewrite Hraw.
    destruct (crypto.HexToECDSA (WalletRecord.PrivateKey decoded))
      as [k [e|]]; reflexivity. }
  rewrite Hset. unfold common.HexToAddress, common.BytesToAddress.
  rewrite Hfrom. apply setBytes_closed_form.
Qed.

Lemma SetBSON_address_padded_or_cropped_witness :
  Wallet.Address
    (fst (fst (@SetBSON Double.primitives Double.storage (Double.wallet 7)
                 (Some (WalletRecord.mk [] (str "0xabcd") (str "no key")
                          false false)))))
  = repeat x00 18 ++ [xab; xcd].
Proof.
  apply (@SetBSON_address_padded_or_cropped Double.primitives Double.storage
           (Double.wallet 7)
           (Some (WalletRecord.mk [] (str "0xabcd") (str "no key")
                    false false))
           (WalletRecord.mk [] (str "0xabcd") (str "no key") false false)
           [xab; xcd]).
  - reflexivity.
  - right. reflexivity.
Defined.

(** X18. A key text that has not exactly 64 characters, or that starts
    with [0x] or [0X], is never accepted: [NewWalletFromPrivateKey] prints
    an error and stops the program, and [SetBSON] returns an error for a
    document with such a private key. *)
Theorem key_text_wrong_length_or_prefix_rejected
    {prim : Primitives} {store : Storage} (key : bytes) :
  length key <> 64%nat \/ common.has0xPrefix key = true ->
  exists e,
    NewWalletFromPrivateKey key = (Panic NilDereference, [e]) /\
    forall w raw decoded,
      Unmarshal raw = (decoded, None) ->
      WalletRecord.PrivateKey decoded = key ->
      snd (fst (SetBSON w raw)) = Some e.
Proof.
  intros Hbad.
  assert (Hrej : exists e, crypto.HexToECDSA key = (None, Some e)).
  { destruct Hbad as [Hlen | Hpre].
    - apply HexToECDSA_bad_length. exact Hlen.
    - exists (errorString "invalid hex string").
      destruct key as [|c0 [|c1 rest]]; try discriminate.
      unfold common.has0xPrefix in Hpre.
      apply andb_true_iff in Hpre as [H0 H1].
      apply Byte.byte_dec_bl in H0. subst c0.
      unfold crypto.HexToECDSA.
      apply orb_true_iff in H1 as [H1 | H1];
        apply Byte.byte_dec_bl in H1; subst c1; reflexivity. }
  destruct Hrej as [e He]. exists e. split.
  - unfold NewWalletFromPrivateKey. rewrite He. reflexivity.
  - intros w raw decoded Hraw Hkey. subst key.
    rewrite (SetBSON_key_error w raw Hraw He). reflexivity.
Qed.

Lemma key_text_wrong_length_or_prefix_rejected_witness :
  let key :=
    str "0x0000000000000000000000000000000000000000000000000000000000000007" in
  exists e,
    @NewWalletFromPrivateKey Double.primitives key
      = (Panic NilDereference, [e]) /\
    forall w raw decoded,
      @Unmarshal Double.storage raw = (decoded, None) ->
      WalletRecord.PrivateKey decoded = key ->
      snd (fst (@SetBSON Double.primitives Double.storage w raw)) = Some e.
Proof.
  intros key.
  apply (@key_text_wrong_length_or_prefix_rejected Double.primitives
           Double.storage key).
  right. reflexivity.
Defined.
